(** * sync.py: the header locator and the table builder of the sheet sync

    A shallow embedding of the pure core of [sync.py] (cell classifiers,
    [find_header_row_and_cols], [has_data], [get_val], [build_db_result],
    [should_sync_sheet]) together with the Python builtins they call, and
    the properties of the specification proved or refuted on it. *)

From Stdlib Require Import ZArith NArith List Bool String Ascii Lia.
From Stdlib Require Import SpecFloat DecimalString.
Import ListNotations.

(** ** Python strings

    A Python [str] is the sequence of its Unicode code points.  String
    literals of the source are written as UTF-8 text and decoded. *)

Definition str := list N.

Fixpoint utf8_decode (bs : list N) : str :=
  match bs with
  | [] => []
  | b :: r =>
    if (b <? 128)%N then b :: utf8_decode r
    else if (b <? 224)%N then
      match r with
      | b1 :: r1 => ((b - 192) * 64 + (b1 - 128))%N :: utf8_decode r1
      | _ => []
      end
    else if (b <? 240)%N then
      match r with
      | b1 :: b2 :: r2 =>
        ((b - 224) * 4096 + (b1 - 128) * 64 + (b2 - 128))%N :: utf8_decode r2
      | _ => []
      end
    else
      match r with
      | b1 :: b2 :: b3 :: r3 =>
        ((b - 240) * 262144 + (b1 - 128) * 4096 + (b2 - 128) * 64 + (b3 - 128))%N
          :: utf8_decode r3
      | _ => []
      end
  end.

Definition lit (s : string) : str :=
  utf8_decode (map N_of_ascii (list_ascii_of_string s)).

Definition chr (s : string) : N :=
  match lit s with c :: _ => c | [] => 0%N end.

Definition str_eqb (a b : str) : bool :=
  if list_eq_dec N.eq_dec a b then true else false.

Fixpoint startswith (p s : str) : bool :=
  match p, s with
  | [], _ => true
  | _ :: _, [] => false
  | a :: p', b :: s' => (a =? b)%N && startswith p' s'
  end.

(** [p in s] on strings. *)
Fixpoint contains (p s : str) : bool :=
  startswith p s ||
  match s with
  | [] => false
  | _ :: r => contains p r
  end.

(** [s.replace(old, new)] for one-character [old] and [new]. *)
Definition replace (old new : N) (s : str) : str :=
  map (fun c => if (c =? old)%N then new else c) s.

(** [str.isspace] of one code point (Py_UNICODE_ISSPACE). *)
Definition isspace (c : N) : bool :=
  ((9 <=? c) && (c <=? 13) || (28 <=? c) && (c <=? 32) ||
   (c =? 133) || (c =? 160) || (c =? 5760) ||
   (8192 <=? c) && (c <=? 8202) || (c =? 8232) || (c =? 8233) ||
   (c =? 8239) || (c =? 8287) || (c =? 12288))%N.

Fixpoint lstrip (s : str) : str :=
  match s with
  | [] => []
  | c :: r => if isspace c then lstrip r else s
  end.

Definition rstrip (s : str) : str := rev (lstrip (rev s)).

Definition strip (s : str) : str := rstrip (lstrip s).

Definition is_ascii (c : N) : bool := (c <? 128)%N.

Definition ascii_digit (c : N) : bool := ((48 <=? c) && (c <=? 57))%N.

Definition ascii_lower (c : N) : N :=
  if ((65 <=? c) && (c <=? 90))%N then (c + 32)%N else c.

(** The Cyrillic block U+0400..U+045F: capitals U+0400..U+040F map to
    U+0450..U+045F, capitals U+0410..U+042F to U+0430..U+044F. *)
Definition is_cyrillic (c : N) : bool := ((1024 <=? c) && (c <=? 1119))%N.

Definition cyrillic_lower (c : N) : N :=
  if ((1024 <=? c) && (c <=? 1039))%N then (c + 80)%N
  else if ((1040 <=? c) && (c <=? 1071))%N then (c + 32)%N
  else ascii_lower c.

(** ** Python floats: IEEE 754 binary64 *)

Definition float := spec_float.

Definition f64_div (x y : float) : float := SFdiv 53 1024 x y.

Definition float_zero : float := S754_zero false.

(** ** The interpreter's Unicode database and float printer

    What [str.lower] does outside ASCII and the Cyrillic block, which
    code points outside ASCII are decimal digits (and their values), and
    how [repr] prints a float, depend on the interpreter; the embedding
    takes them as a record. *)

Record Runtime := {
  unicode_lower : str -> str;
  unicode_decimal : N -> option N;
  float_repr : float -> str
}.

(** ** Cell values: what the sheets API returns in a grid *)

Inductive value :=
| VNone
| VBool (b : bool)
| VInt (z : Z)
| VFloat (f : float)
| VStr (s : str).

Definition row := list value.
Definition grid := list row.

(** [isinstance(x, str)] and [isinstance(x, (int, float))]. *)
Definition is_str (v : value) : bool :=
  match v with VStr _ => true | _ => false end.

Definition is_number (v : value) : bool :=
  match v with VBool _ | VInt _ | VFloat _ => true | _ => false end.

(** [x in ("", None)]. *)
Definition is_blank (v : value) : bool :=
  match v with
  | VNone => true
  | VStr [] => true
  | _ => false
  end.

Definition nonempty (s : str) : bool :=
  match s with [] => false | _ => true end.

(** Truth value of an object. *)
Definition truthy (v : value) : bool :=
  match v with
  | VNone => false
  | VBool b => b
  | VInt z => negb (z =? 0)%Z
  | VFloat f => negb (SFeqb f float_zero)
  | VStr s => nonempty s
  end.

(** [x > 0] on numbers. *)
Definition gt_zero (v : value) : bool :=
  match v with
  | VBool b => b
  | VInt z => (0 <? z)%Z
  | VFloat f => SFltb float_zero f
  | _ => false
  end.

(** [v == s] for a string [s]. *)
Definition eq_str (v : value) (s : str) : bool :=
  match v with VStr t => str_eqb t s | _ => false end.

Definition len {A} (l : list A) : Z := Z.of_nat (List.length l).

(** [l[i]] at an index the caller has checked, [0 <= i < len(l)]. *)
Definition getitem {A} (d : A) (l : list A) (i : Z) : A :=
  nth (Z.to_nat i) l d.

Definition range (a b : Z) : list Z :=
  map (fun k => (a + Z.of_nat k)%Z) (seq 0 (Z.to_nat (b - a))).

Definition str_of_int (z : Z) : str :=
  map N_of_ascii (list_ascii_of_string (NilZero.string_of_int (Z.to_int z))).

(** ** Builtins that consult the interpreter *)

Section Builtins.

Variable rt : Runtime.

(** [s.lower()]: CPython lowers an ASCII string byte by byte; a string of
    ASCII and Cyrillic letters code point by code point; anything else
    goes through the Unicode database. *)
Definition lower (s : str) : str :=
  if forallb is_ascii s then map ascii_lower s
  else if forallb (fun c => is_ascii c || is_cyrillic c) s
       then map cyrillic_lower s
  else unicode_lower rt s.

(** Py_UNICODE_TODECIMAL: the value of a decimal digit. *)
Definition todecimal (c : N) : option N :=
  if is_ascii c then (if ascii_digit c then Some (c - 48)%N else None)
  else unicode_decimal rt c.

Definition isdecimal (c : N) : bool :=
  match todecimal c with Some _ => true | None => false end.

(** [str(x)]. *)
Definition py_str (v : value) : str :=
  match v with
  | VNone => lit "None"
  | VBool true => lit "True"
  | VBool false => lit "False"
  | VInt z => str_of_int z
  | VFloat f => float_repr rt f
  | VStr s => s
  end.

(** *** The two regular expressions of the source

    A pattern is a sequence of tokens; [re_match] is [re.match] (anchored
    at the start of the string, satisfied by a prefix), [re_search] is
    [re.search]. *)

Inductive token :=
| Bol            (* ^ *)
| Eol            (* $ : at the end, or before a newline that ends the string *)
| Digit          (* \d *)
| Lit (c : N).

Definition accepts (t : token) (c : N) : bool :=
  match t with
  | Digit => isdecimal c
  | Lit a => (c =? a)%N
  | _ => false
  end.

Fixpoint re_match_at (p : list token) (at_start : bool) (s : str) : bool :=
  match p with
  | [] => true
  | Bol :: p' => at_start && re_match_at p' at_start s
  | Eol :: p' =>
    match s with
    | [] => re_match_at p' at_start s
    | [c] => (c =? 10)%N && re_match_at p' at_start s
    | _ => false
    end
  | t :: p' =>
    match s with
    | [] => false
    | c :: r => accepts t c && re_match_at p' false r
    end
  end.

Definition re_match (p : list token) (s : str) : bool := re_match_at p true s.

Fixpoint re_search_from (p : list token) (at_start : bool) (s : str) : bool :=
  re_match_at p at_start s ||
  match s with
  | [] => false
  | _ :: r => re_search_from p false r
  end.

Definition re_search (p : list token) (s : str) : bool :=
  re_search_from p true s.

(** r"^\d{2}\.\d{2}\.\d{4}$" *)
Definition date_pattern : list token :=
  [Bol] ++ repeat Digit 2 ++ [Lit (chr ".")] ++ repeat Digit 2 ++
  [Lit (chr ".")] ++ repeat Digit 4 ++ [Eol].

(** r"\d" *)
Definition digit_pattern : list token := [Digit].

(** *** [float(s)] on a string

    [None] stands for the ValueError.  The steps are those of CPython:
    code points outside ASCII are mapped to ASCII (spaces and decimal
    digits) or cut at the first other one, underscores between digits are
    dropped, surrounding ASCII white space is stripped, and what is left
    must be, as a whole, a decimal numeral or a spelling of infinity or
    nan.  The value is the binary64 number nearest to the numeral. *)

Fixpoint ascii_transform (s : str) : str :=
  match s with
  | [] => []
  | c :: r =>
    if (c <? 127)%N then c :: ascii_transform r
    else if isspace c then 32%N :: ascii_transform r
    else match todecimal c with
         | Some d => (48 + d)%N :: ascii_transform r
         | None => [63%N]
         end
  end.

Fixpoint drop_underscores (prev : N) (s : str) : option str :=
  match s with
  | [] => if (prev =? 95)%N then None else Some []
  | c :: r =>
    if (c =? 95)%N then
      if ascii_digit prev then drop_underscores c r else None
    else if (prev =? 95)%N && negb (ascii_digit c) then None
    else option_map (cons c) (drop_underscores c r)
  end.

(** Py_ISSPACE *)
Definition c_isspace (c : N) : bool :=
  ((c =? 32) || (9 <=? c) && (c <=? 13))%N.

Fixpoint c_lstrip (s : str) : str :=
  match s with
  | [] => []
  | c :: r => if c_isspace c then c_lstrip r else s
  end.

Fixpoint span_digits (s : str) : str * str :=
  match s with
  | [] => ([], [])
  | c :: r =>
    if ascii_digit c then let (d, t) := span_digits r in (c :: d, t)
    else ([], s)
  end.

Definition digits_value (d : str) : Z :=
  fold_left (fun acc c => (10 * acc + Z.of_N (c - 48))%Z) d 0%Z.

Definition take_sign (s : str) : bool * str :=
  match s with
  | c :: r =>
    if (c =? 45)%N then (true, r)
    else if (c =? 43)%N then (false, r)
    else (false, s)
  | [] => (false, s)
  end.

(** The binary64 number nearest to [(-1)^neg * m * 10^e]. *)
Definition float_of_decimal (neg : bool) (m e : Z) : float :=
  match m with
  | Zpos p =>
    match e with
    | Zneg q => f64_div (S754_finite neg p 0) (S754_finite false (10 ^ q) 0)
    | Z0 => f64_div (S754_finite neg p 0) (S754_finite false 1 0)
    | Zpos q => f64_div (S754_finite neg (p * 10 ^ q) 0) (S754_finite false 1 0)
    end
  | _ => S754_zero neg
  end.

Definition parse_exponent (s : str) : Z * str :=
  match s with
  | c :: r =>
    if (c =? 101)%N || (c =? 69)%N then
      let (eneg, r1) := take_sign r in
      let (ed, r2) := span_digits r1 in
      match ed with
      | [] => (0%Z, s)
      | _ => ((if eneg then - digits_value ed else digits_value ed)%Z, r2)
      end
    else (0%Z, s)
  | [] => (0%Z, s)
  end.

Definition parse_inf_or_nan (s : str) : option float :=
  let (neg, r) := take_sign s in
  let l := map ascii_lower r in
  if str_eqb l (lit "inf") || str_eqb l (lit "infinity")
  then Some (S754_infinity neg)
  else if str_eqb l (lit "nan") then Some S754_nan
  else None.

Definition parse_numeral (s : str) : option float :=
  let (neg, s1) := take_sign s in
  let (ip, s2) := span_digits s1 in
  let (fp, s3) :=
    match s2 with
    | c :: r => if (c =? 46)%N then span_digits r else ([], s2)
    | [] => ([], s2)
    end in
  match ip ++ fp with
  | [] => parse_inf_or_nan s
  | ds =>
    let (e, s4) := parse_exponent s3 in
    match s4 with
    | [] => Some (float_of_decimal neg (digits_value ds) (e - len fp))
    | _ => None
    end
  end.

Definition py_float (s : str) : option float :=
  let a := if forallb is_ascii s then s else ascii_transform s in
  match (if existsb (N.eqb 95) a then drop_underscores 0 a else Some a) with
  | None => None
  | Some b =>
    match c_lstrip b with
    | [] => None
    | t => parse_numeral (rev (c_lstrip (rev t)))
    end
  end.

End Builtins.

(** ** The cell classifiers *)

Local Open Scope Z_scope.

Section Sync.

Variable rt : Runtime.

Definition is_valid_date_cell (v : value) : bool :=
  match v with
  | VStr s => re_match rt date_pattern (strip s)
  | _ => false
  end.

Definition forbidden : list str :=
  [lit "итого"; lit "сотрудники"; lit "s"; lit "m"; lit "дата";
   lit "менеджер"; lit "ф.и.о"; lit "оферты"].

Definition is_technical_word (val : value) : bool :=
  let v := strip (lower rt (py_str rt val)) in
  existsb (str_eqb v) forbidden || str_eqb v [].

(** [float] raises ValueError on a string that is no numeral; the
    [except] clause turns that into 0. *)
Definition safe_num (x : value) : value :=
  if is_blank x then VInt 0
  else if is_number x then x
  else match py_float rt (replace (chr ",") (chr ".") (py_str rt x)) with
       | Some f => VFloat f
       | None => VInt 0
       end.

(** ** The header locator *)

Record Info := {
  found : bool;
  rowIdx : Z;
  managerCol : Z;
  timeCols : list Z;
  totalCol : Z;
  warmCol : Z;
  warmOffCol : Z;
  convCol : Z
}.

Definition init_info : Info :=
  {| found := false; rowIdx := -1; managerCol := -1; timeCols := [];
     totalCol := -1; warmCol := -1; warmOffCol := -1; convCol := -1 |}.

Definition add_timeCol (c : Z) (i : Info) : Info :=
  {| found := found i; rowIdx := rowIdx i; managerCol := managerCol i;
     timeCols := timeCols i ++ [c];
     totalCol := totalCol i; warmCol := warmCol i;
     warmOffCol := warmOffCol i; convCol := convCol i |}.

Definition set_totalCol (c : Z) (i : Info) : Info :=
  {| found := found i; rowIdx := rowIdx i; managerCol := managerCol i;
     timeCols := timeCols i;
     totalCol := c; warmCol := warmCol i;
     warmOffCol := warmOffCol i; convCol := convCol i |}.

Definition set_warmCol (c : Z) (i : Info) : Info :=
  {| found := found i; rowIdx := rowIdx i; managerCol := managerCol i;
     timeCols := timeCols i;
     totalCol := totalCol i; warmCol := c;
     warmOffCol := warmOffCol i; convCol := convCol i |}.

Definition set_warmOffCol (c : Z) (i : Info) : Info :=
  {| found := found i; rowIdx := rowIdx i; managerCol := managerCol i;
     timeCols := timeCols i;
     totalCol := totalCol i; warmCol := warmCol i;
     warmOffCol := c; convCol := convCol i |}.

Definition set_convCol (c : Z) (i : Info) : Info :=
  {| found := found i; rowIdx := rowIdx i; managerCol := managerCol i;
     timeCols := timeCols i;
     totalCol := totalCol i; warmCol := warmCol i;
     warmOffCol := warmOffCol i; convCol := c |}.

Definition set_found (r m : Z) (i : Info) : Info :=
  {| found := true; rowIdx := r; managerCol := m;
     timeCols := timeCols i;
     totalCol := totalCol i; warmCol := warmCol i;
     warmOffCol := warmOffCol i; convCol := convCol i |}.

(** The test on a lowercased header cell: ":" and "-" and a digit. *)
Definition is_time_text (val : str) : bool :=
  contains (lit ":") val && contains (lit "-") val &&
  re_search rt digit_pattern val.

(** The state of the scan of one row: the dictionary [info], [has_time]
    and [first_time_col]. *)
Record Scan := {
  info : Info;
  has_time : bool;
  first_time_col : Z
}.

(** The body of the loop over the columns [c] of a row. *)
Definition scan_cell (st : Scan) (c : Z) (cell : value) : Scan :=
  let val := lower rt (py_str rt cell) in
  let st :=
    if is_time_text val then
      {| info := add_timeCol c (info st);
         has_time := true;
         first_time_col := if has_time st then first_time_col st else c |}
    else st in
  let i := info st in
  let i := if contains (lit "итого оферт") val then set_totalCol c i else i in
  let i := if contains (lit "zvonobot") val
              || contains (lit "тотал теплых") val
              || contains (lit "теплых лидов") val
           then set_warmCol c i else i in
  let i := if contains (lit "офферт из теплых") val
              || contains (lit "из теплых") val
              || contains (lit "от quanta") val
           then set_warmOffCol c i else i in
  let i := if contains (lit "конверси") val then set_convCol c i else i in
  {| info := i; has_time := has_time st; first_time_col := first_time_col st |}.

Fixpoint scan_row (cells : row) (c : Z) (st : Scan) : Scan :=
  match cells with
  | [] => st
  | cell :: rest => scan_row rest (c + 1) (scan_cell st c cell)
  end.

(** The loop over the rows [r], left at the first row with a time header. *)
Fixpoint scan_rows (rows : grid) (r : Z) (i : Info) : Info :=
  match rows with
  | [] => i
  | cells :: rest =>
    let st := scan_row cells 0
                {| info := i; has_time := false; first_time_col := -1 |} in
    if has_time st
    then set_found r (Z.max 0 (first_time_col st - 1)) (info st)
    else scan_rows rest (r + 1) (info st)
  end.

Definition find_header_row_and_cols (data : grid) : Info :=
  scan_rows (firstn (Nat.min 10 (List.length data)) data) 0 init_info.

(** ** The table builder *)

Definition has_data (r : row) (i : Info) : bool :=
  let total_val :=
    if (totalCol i >? -1) && (totalCol i <? len r)
    then safe_num (getitem VNone r (totalCol i)) else VInt 0 in
  let warm_val :=
    if (warmCol i >? -1) && (warmCol i <? len r)
    then safe_num (getitem VNone r (warmCol i)) else VInt 0 in
  (is_number total_val && gt_zero total_val)
  || (is_number warm_val && gt_zero warm_val).

Definition get_val (r : row) (idx : Z) : value :=
  if (idx <=? -1) || (idx >=? len r) then VInt 0
  else if is_blank (getitem VNone r idx) then VInt 0
  else getitem VNone r idx.

Definition record := list value.
Definition table := list record.

Definition columns : record :=
  map (fun s => VStr (lit s))
    ["Date"; "Manager"; "Time_Interval"; "Offers"; "Total_Day_Offers";
     "Warm_Leads_Given"; "Offers_From_Warm"; "Conversion_Rate"]%string.

Definition DEPARTMENT_TOTAL : str := lit "DEPARTMENT_TOTAL".

(** The body of the loop over [header["timeCols"]]. *)
Definition emit (data : grid) (header : Info) (r : row)
    (row_owner current_date : value) (result : table) (time_col_idx : Z)
    : table :=
  let hrow := getitem [] data (rowIdx header) in
  let time_label :=
    if time_col_idx <? len hrow then getitem VNone hrow time_col_idx
    else VStr [] in
  let offers :=
    if (time_col_idx <? len r)
       && negb (is_blank (getitem VNone r time_col_idx))
    then getitem VNone r time_col_idx else VInt 0 in
  let total := get_val r (totalCol header) in
  let warm_given := get_val r (warmCol header) in
  let warm_off := get_val r (warmOffCol header) in
  let conv := get_val r (convCol header) in
  if eq_str row_owner DEPARTMENT_TOTAL then
    if (time_col_idx =? getitem 0 (timeCols header) 0)%Z then
      result ++ [[current_date; row_owner; VStr (lit "ALL_DAY"); offers;
                  total; warm_given; warm_off; conv]]
    else result
  else
    result ++ [[current_date; row_owner; VStr (py_str rt time_label); offers;
                total; warm_given; warm_off; conv]].

(** The owner of a row, given its manager cell and the date in force. *)
Definition owner_of (header : Info) (r : row) (cell_val current_date : value)
    : value :=
  let is_date := is_valid_date_cell cell_val in
  if is_date && has_data r header then VStr DEPARTMENT_TOTAL
  else if negb (nonempty (strip (py_str rt cell_val)))
          && truthy current_date && has_data r header
       then VStr DEPARTMENT_TOTAL
  else if nonempty (strip (py_str rt cell_val)) && negb is_date
          && negb (is_technical_word cell_val)
       then VStr (strip (py_str rt cell_val))
  else VNone.

Definition manager_cell (header : Info) (r : row) : value :=
  if managerCol header <? len r then getitem VNone r (managerCol header)
  else VStr [].

(** The body of the loop over the rows [i] below the header: the state is
    [current_date] and [result]. *)
Definition build_row (data : grid) (header : Info) (st : value * table)
    (i : Z) : value * table :=
  let (current_date, result) := st in
  let r := getitem [] data i in
  let cell_val := manager_cell header r in
  let current_date :=
    if is_valid_date_cell cell_val then cell_val else current_date in
  let row_owner := owner_of header r cell_val current_date in
  let result :=
    if truthy row_owner && truthy current_date
    then fold_left (emit data header r row_owner current_date)
           (timeCols header) result
    else result in
  (current_date, result).

Definition no_header_message : str :=
  lit "Не удалось найти заголовки времени в листе".

Definition build_db_result (source_values : grid)
    : option table * option str :=
  let data := source_values in
  let header := find_header_row_and_cols data in
  if negb (found header) then (None, Some no_header_message)
  else
    let st := fold_left (build_row data header)
                (range (rowIdx header + 1) (len data)) (VNone, [columns]) in
    (Some (snd st), None).

(** ** The rows of the table, row by row

    [build_row] threads [current_date] and [result] through the rows.  The
    definitions below name the date in force at a row and the records the
    row adds, so that properties of single rows can be stated;
    [build_db_result_rows] shows that the table is the header record
    followed by these records. *)

Definition is_time_cell (cell : value) : bool :=
  is_time_text (lower rt (py_str rt cell)).

Definition has_time_cell (r : row) : bool := existsb is_time_cell r.

Definition is_date_row (data : grid) (header : Info) (i : Z) : bool :=
  is_valid_date_cell (manager_cell header (getitem [] data i)).

(** [current_date] after the first statements of the loop body at row [i]. *)
Definition date_step (data : grid) (header : Info) (current_date : value)
    (i : Z) : value :=
  if is_date_row data header i
  then manager_cell header (getitem [] data i) else current_date.

Definition date_at (data : grid) (header : Info) (i : Z) : value :=
  fold_left (date_step data header) (range (rowIdx header + 1) (i + 1)) VNone.

Definition owner_at (data : grid) (header : Info) (i : Z) : value :=
  let r := getitem [] data i in
  owner_of header r (manager_cell header r) (date_at data header i).

(** What the loop over the time columns appends at row [i] when the date
    in force is [current_date]. *)
Definition row_records (data : grid) (header : Info) (current_date : value)
    (i : Z) : list record :=
  let r := getitem [] data i in
  let row_owner := owner_of header r (manager_cell header r) current_date in
  if truthy row_owner && truthy current_date
  then fold_left (emit data header r row_owner current_date)
         (timeCols header) []
  else [].

Definition records_of_row (data : grid) (header : Info) (i : Z)
    : list record :=
  row_records data header (date_at data header i) i.

(** The columns of a row, counted from [c], that hold a time interval. *)
Fixpoint time_cols_from (cells : row) (c : Z) : list Z :=
  match cells with
  | [] => []
  | cell :: rest =>
    (if is_time_cell cell then [c] else []) ++ time_cols_from rest (c + 1)
  end.

(** The position of the first row that has a time interval, if any. *)
Fixpoint first_time_row (rows : grid) : option nat :=
  match rows with
  | [] => None
  | cells :: rest =>
    if has_time_cell cells then Some O
    else option_map S (first_time_row rest)
  end.

(** The record of a department total row: the interval is "ALL_DAY" and
    the offers are those of the time column [tc0]. *)
Definition department_total_record (header : Info) (r : row) (date : value)
    (tc0 : Z) : record :=
  [date; VStr DEPARTMENT_TOTAL; VStr (lit "ALL_DAY"); get_val r tc0;
   get_val r (totalCol header); get_val r (warmCol header);
   get_val r (warmOffCol header); get_val r (convCol header)].

(** The record of a manager row for the time column [tc]: the interval is
    the label of the column in the header row [hrow]. *)
Definition manager_record (header : Info) (hrow r : row) (date owner : value)
    (tc : Z) : record :=
  [date; owner; VStr (py_str rt (getitem VNone hrow tc)); get_val r tc;
   get_val r (totalCol header); get_val r (warmCol header);
   get_val r (warmOffCol header); get_val r (convCol header)].

(** The rows the header locator reads. *)
Definition scanned (data : grid) : grid :=
  firstn (Nat.min 10 (List.length data)) data.

(** The data rows: the indices the loop of [build_db_result] visits. *)
Definition data_rows (data : grid) (header : Info) : list Z :=
  range (rowIdx header + 1) (len data).

End Sync.

(** ** The sync decision *)

Record Sheet := { title : str; sheetId : Z }.

(** The two calls of the sheets service the decision makes: the sheets of
    a spreadsheet (its metadata) and the values of a range ([[]] when the
    response has none). *)
Record Service := {
  get_spreadsheet_metadata : str -> list Sheet;
  read_values : str -> str -> grid
}.

Section Orchestrator.

Variable TARGET_SPREADSHEET_ID : str.

Definition months : list str :=
  map lit ["January"; "February"; "March"; "April"; "May"; "June";
           "July"; "August"; "September"; "October"; "November";
           "December"]%string.

Definition current_month_name (month : Z) : str :=
  getitem [] months (month - 1).

Definition sheet_last_row_estimate (service : Service)
    (spreadsheet_id sheet_name : str) : Z :=
  len (read_values service spreadsheet_id (sheet_name ++ lit "!A:A")).

Definition should_sync_sheet (service : Service)
    (sheet_name current_month : str) : bool :=
  let db_name := lit "DB_" ++ sheet_name in
  let meta := get_spreadsheet_metadata service TARGET_SPREADSHEET_ID in
  let exists_ := existsb (fun s => str_eqb (title s) db_name) meta in
  if negb exists_ then true
  else if contains current_month sheet_name then true
  else sheet_last_row_estimate service TARGET_SPREADSHEET_ID db_name <=? 1.

End Orchestrator.

(** ** Words of the specification *)

(** [p] occurs in [s]. *)
Definition substring (p s : str) : Prop := exists a b, s = a ++ p ++ b.

(** A header cell is a time interval: its lowercased text holds ":", "-"
    and a digit. *)
Definition time_header (rt : Runtime) (cell : value) : Prop :=
  let val := lower rt (py_str rt cell) in
  In (chr ":") val /\ In (chr "-") val /\
  exists d, In d val /\ isdecimal rt d = true.

(** A row qualifies as the header row: one of its cells is a time interval. *)
Definition qualifies (rt : Runtime) (r : row) : Prop :=
  exists cell, In cell r /\ time_header rt cell.

(** A field of a record is 0 or a cell of the source row that is neither
    the empty string nor None, unchanged. *)
Definition passed_through (r : row) (v : value) : Prop :=
  v = VInt 0 \/ (In v r /\ is_blank v = false).

(** The Date field of a record. *)
Definition date_field (rec : record) : value := nth 0 rec VNone.

(** ** A runtime and grids to evaluate on *)

(** An interpreter that knows the ASCII digits only, leaves other scripts
    unchanged and prints every float as "nan": enough for grids of ASCII
    and Cyrillic text and integers. *)
Definition plain_runtime : Runtime :=
  {| unicode_lower := fun s => s;
     unicode_decimal := fun _ => None;
     float_repr := fun _ => lit "nan" |}.

Definition text (s : string) : value := VStr (lit s).

Definition one_slot_header : row :=
  [text ""; text ""; text "10:00-11:00"; text "Итого оферт"].

(** The grid of the specification's example: the date in column 0, the
    manager column (index 1) empty. *)
Definition date_left_grid : grid :=
  [one_slot_header; [text "05.01.2024"; text ""; VInt 3; VInt 5]].

(** The same with the date in the manager column. *)
Definition date_in_manager_grid : grid :=
  [one_slot_header; [text ""; text "05.01.2024"; VInt 3; VInt 5]].

Definition expected_record : record :=
  [text "05.01.2024"; text "DEPARTMENT_TOTAL"; text "ALL_DAY";
   VInt 3; VInt 5; VInt 0; VInt 0; VInt 0].

(** A manager row above any date row. *)
Definition undated_grid : grid :=
  [[text "Manager"; text "10:00-11:00"]; [text "Ivan"; VInt 3]].

(** Text in the time column and in the total column of a manager row. *)
Definition text_cells_grid : grid :=
  [[text "Manager"; text "10:00-11:00"; text "Итого оферт"];
   [text "05.01.2024"];
   [text "Ivan"; text "n/a"; text "abc"]].

(** Two time columns, a department row and rows labelled S and m. *)
Definition two_slot_grid : grid :=
  [[text "Дата"; text "Менеджер"];
   [text "Manager"; text "10:00-11:00"; text "11:00-12:00"; text "Итого оферт"];
   [text "05.01.2024"; VInt 3; VInt 4; VInt 7];
   [text "Ivan"; VInt 1; VInt 2];
   [text "S"; VInt 9; VInt 9];
   [text "m"; VInt 9; VInt 9]].

Definition two_slot_info : Info :=
  find_header_row_and_cols plain_runtime two_slot_grid.

Definition undated_info : Info :=
  find_header_row_and_cols plain_runtime undated_grid.

(** The same rows down to the header row, another row below it. *)
Definition two_slot_variant : grid :=
  firstn 2 two_slot_grid ++ [[text "12:00-13:00"; text "x"]].

Definition text_cells_record : record :=
  [text "05.01.2024"; text "Ivan"; text "10:00-11:00"; text "n/a";
   text "abc"; VInt 0; VInt 0; VInt 0].

(** A target spreadsheet with the sheets Settings and DB_March; DB_March
    has three rows in column A. *)
Definition sample_service : Service :=
  {| get_spreadsheet_metadata := fun _ =>
       [{| title := lit "Settings"; sheetId := 0 |};
        {| title := lit "DB_March"; sheetId := 7 |}];
     read_values := fun _ _ => [[text "Date"]; [text "x"]; [text "y"]] |}.

(** ** Column letters

    The loop of [col_to_a1] runs while [n] is not 0; [fuel] bounds the
    number of rounds and [None] says that the rounds were not enough.  For
    [n] below 0 no number of rounds is enough ([col_to_a1_negative]). *)

Fixpoint col_to_a1_loop (fuel : nat) (n : Z) (s : str) : option str :=
  match fuel with
  | O => None
  | S fuel' =>
    if n =? 0 then Some s
    else let (q, r) := Z.div_eucl (n - 1) 26 in
         col_to_a1_loop fuel' q (Z.to_N (65 + r) :: s)
  end.

Definition col_to_a1 (n : Z) : option str :=
  col_to_a1_loop (S (Z.to_nat n)) n [].

(** The column a string of letters names: A = 1, ..., Z = 26, AA = 27. *)
Definition a1_value (s : str) : Z :=
  fold_left (fun acc c => 26 * acc + (Z.of_N c - 64)) s 0.

Definition is_capital (c : N) : bool := ((65 <=? c) && (c <=? 90))%N.

(** ** The sync of one sheet

    Every call of the sheets API makes one request, which is answered or
    raises HttpError.  Neither [ensure_sheet_exists] nor [sync_one]
    catches the error: it ends the run and is passed to the caller.  The
    requests executed and the lines printed are collected, in order, as
    the effects of the run.  The requests of one sync differ from one
    another and those that read come before those that write, so a run is
    determined by the answers to the reads and by which requests raise. *)

Inductive request :=
| GetValues (spreadsheet_id a1_range : str)
| GetSpreadsheet (spreadsheet_id : str)
| AddSheet (spreadsheet_id sheet_title : str)
| ClearValues (spreadsheet_id a1_range : str)
| UpdateValues (spreadsheet_id a1_range : str) (values : table).

Inductive effect :=
| Executed (q : request)
| Printed (line : str).

Inductive exn :=
| HttpError (q : request)
| TypeError
| IndexError.

(** How a run ends: it returns, raises, or does not end. *)
Inductive outcome (A : Type) :=
| Returned (a : A)
| Raised (e : exn)
| Diverged.

Arguments Returned {A} a.
Arguments Raised {A} e.
Arguments Diverged {A}.

(** A run: its effects up to its end, and how it ends. *)
Definition Run (A : Type) : Type := list effect * outcome A.

Definition ret {A : Type} (a : A) : Run A := ([], Returned a).

Definition raise {A : Type} (e : exn) : Run A := ([], Raised e).

Definition bind {A B : Type} (m : Run A) (k : A -> Run B) : Run B :=
  match m with
  | (done, Returned a) => let (more, out) := k a in (done ++ more, out)
  | (done, Raised e) => (done, Raised e)
  | (done, Diverged) => (done, Diverged)
  end.

Definition print (line : str) : Run unit := ([Printed line], Returned tt).

(** The calls of the API.  [raises] tells the requests that fail in the
    run; the [Service] gives the answers of those that read. *)
Module Call.

(** [.execute()] of a request whose answer is [response]. *)
Definition execute {A : Type} (raises : request -> bool) (q : request)
    (response : A) : Run A :=
  if raises q then raise (HttpError q) else ([Executed q], Returned response).

Definition read_values (raises : request -> bool) (service : Service)
    (spreadsheet_id a1_range : str) : Run grid :=
  execute raises (GetValues spreadsheet_id a1_range)
    (read_values service spreadsheet_id a1_range).

Definition clear_sheet (raises : request -> bool)
    (spreadsheet_id sheet_name : str) : Run unit :=
  execute raises (ClearValues spreadsheet_id sheet_name) tt.

Definition write_values (raises : request -> bool)
    (spreadsheet_id a1_range : str) (values : table) : Run unit :=
  execute raises (UpdateValues spreadsheet_id a1_range values) tt.

Definition get_spreadsheet_metadata (raises : request -> bool)
    (service : Service) (spreadsheet_id : str) : Run (list Sheet) :=
  execute raises (GetSpreadsheet spreadsheet_id)
    (get_spreadsheet_metadata service spreadsheet_id).

End Call.

Section Pipeline.

Variable rt : Runtime.
Variable SOURCE_SPREADSHEET_ID TARGET_SPREADSHEET_ID : str.
Variable SETTINGS_SHEET_NAME : str.

(** The sheetId in the reply to an addSheet request. *)
Variable added_sheet_id : str -> str -> Z.

(** The requests that raise HttpError. *)
Variable raises : request -> bool.

Notation "x <- m ;; k" := (bind m (fun x => k))
  (at level 61, m at next level, right associativity).

Notation "m ;; k" := (bind m (fun _ => k))
  (at level 61, right associativity).

Definition get_settings_sheet_names (service : Service) : list str :=
  let values := read_values service TARGET_SPREADSHEET_ID
                  (SETTINGS_SHEET_NAME ++ lit "!A2:A") in
  fold_left
    (fun names r =>
       match r with
       | [] => names
       | cell :: _ =>
         let name := strip (py_str rt cell) in
         if nonempty name then names ++ [name] else names
       end)
    values [].

Definition ensure_sheet_exists (service : Service)
    (spreadsheet_id sheet_name : str) : Run Z :=
  meta <- Call.get_spreadsheet_metadata raises service spreadsheet_id ;;
  match find (fun s => str_eqb (title s) sheet_name) meta with
  | Some s => ret (sheetId s)
  | None =>
    Call.execute raises (AddSheet spreadsheet_id sheet_name)
      (added_sheet_id spreadsheet_id sheet_name)
  end.

(** [col_to_a1] as a step of a run: without the end of its loop the run
    does not end. *)
Definition letters_of (n : Z) : Run str :=
  match col_to_a1 n with
  | None => ([], Diverged)
  | Some s => ret s
  end.

Definition sync_one (service : Service) (sheet_name : str) : Run unit :=
  let db_name := lit "DB_" ++ sheet_name in
  source_values <-
    Call.read_values raises service SOURCE_SPREADSHEET_ID sheet_name ;;
  match source_values with
  | [] => print (lit "[SKIP] SOURCE лист не найден/пустой: " ++ sheet_name)
  | _ =>
    let (result, err) := build_db_result rt source_values in
    match err with
    | Some (c :: e) =>
      print (lit "[SKIP] " ++ sheet_name ++ lit ": " ++ c :: e)
    | _ =>
      ensure_sheet_exists service TARGET_SPREADSHEET_ID db_name ;;
      match result with
      | None => raise TypeError (* len(result) *)
      | Some [] => raise IndexError (* result[0] *)
      | Some ((first :: _) as result) =>
        let rows := len result in
        let cols := len first in
        letters <- letters_of cols ;;
        let end_a1 := letters ++ str_of_int rows in
        let write_range := db_name ++ lit "!A1:" ++ end_a1 in
        Call.clear_sheet raises TARGET_SPREADSHEET_ID db_name ;;
        Call.write_values raises TARGET_SPREADSHEET_ID write_range result ;;
        print (lit "[OK] SYNC: " ++ sheet_name ++ lit " -> " ++ db_name ++
               lit " (" ++ str_of_int rows ++ lit "x" ++ str_of_int cols ++
               lit ")")
      end
    end
  end.

End Pipeline.

(** The requests executed in a run, in order. *)
Definition executed (effects : list effect) : list request :=
  flat_map (fun e => match e with Executed q => [q] | Printed _ => [] end)
    effects.

(** What becomes of requests made one after the other: those executed
    before the first that raises, and that one, if any. *)
Fixpoint attempt (raises : request -> bool) (plan : list request)
    : list request * option request :=
  match plan with
  | [] => ([], None)
  | q :: rest =>
    if raises q then ([], Some q)
    else let (done, failed) := attempt raises rest in (q :: done, failed)
  end.

(** Only the update of the values fails. *)
Definition update_fails (q : request) : bool :=
  match q with UpdateValues _ _ _ => true | _ => false end.

(** The name a row of the settings sheet gives, if any. *)
Definition name_of_row (rt : Runtime) (r : row) : list str :=
  match r with
  | [] => []
  | cell :: _ =>
    if nonempty (strip (py_str rt cell)) then [strip (py_str rt cell)] else []
  end.

(** ** The labels of the aggregate columns *)

Section Labels.

Variable rt : Runtime.

Definition total_label (cell : value) : bool :=
  contains (lit "итого оферт") (lower rt (py_str rt cell)).

Definition warm_label (cell : value) : bool :=
  let val := lower rt (py_str rt cell) in
  contains (lit "zvonobot") val || contains (lit "тотал теплых") val
  || contains (lit "теплых лидов") val.

Definition warm_off_label (cell : value) : bool :=
  let val := lower rt (py_str rt cell) in
  contains (lit "офферт из теплых") val || contains (lit "из теплых") val
  || contains (lit "от quanta") val.

Definition conv_label (cell : value) : bool :=
  contains (lit "конверси") (lower rt (py_str rt cell)).

End Labels.

(** [col] is the column of the last cell, in reading order over the rows
    0 .. [last_row], that carries the label [p]; -1 when no cell does. *)
Definition last_labelled (p : value -> bool) (data : grid) (last_row : Z)
    (col : Z) : Prop :=
  let cell := fun r c => getitem VNone (getitem [] data r) c in
  (col = -1 /\
   forall r c, 0 <= r <= last_row -> 0 <= c < len (getitem [] data r) ->
     p (cell r c) = false) \/
  (exists r,
     0 <= r <= last_row /\ 0 <= col < len (getitem [] data r) /\
     p (cell r col) = true /\
     (forall c, col < c < len (getitem [] data r) -> p (cell r c) = false) /\
     (forall r' c, r < r' <= last_row ->
        0 <= c < len (getitem [] data r') -> p (cell r' c) = false)).

(** A data record as the table builder forms it: the date is text that
    [is_valid_date_cell] accepts, the manager is non-empty text without
    white space around it, the interval is text, and none of the five
    values is the empty string or None. *)
Definition well_formed_record (rt : Runtime) (rec : record) : Prop :=
  exists date owner interval offers total warm warm_off conv,
    rec = [VStr date; VStr owner; VStr interval; offers; total; warm;
           warm_off; conv] /\
    is_valid_date_cell rt (VStr date) = true /\
    owner <> [] /\ strip owner = owner /\
    is_blank offers = false /\ is_blank total = false /\
    is_blank warm = false /\ is_blank warm_off = false /\
    is_blank conv = false.

(** A source spreadsheet whose every sheet is [two_slot_grid], and a
    target with the sheets Settings and DB_March. *)
Definition grid_service : Service :=
  {| get_spreadsheet_metadata := fun _ =>
       [{| title := lit "Settings"; sheetId := 0 |};
        {| title := lit "DB_March"; sheetId := 7 |}];
     read_values := fun _ _ => two_slot_grid |}.

(** Column A of a settings sheet: an empty row, padded names, a blank
    cell, a number. *)
Definition settings_service : Service :=
  {| get_spreadsheet_metadata := fun _ => [];
     read_values := fun _ _ =>
       [[]; [text "  March "]; [text "   "]; [text "April"; text "x"];
        [VInt 2024]] |}.

(** The column of the last cell of a row, counted from [c], that carries
    the label [p]; [acc] when none does. *)
Fixpoint last_col (p : value -> bool) (cells : row) (c : Z) (acc : Z) : Z :=
  match cells with
  | [] => acc
  | cell :: rest => last_col p rest (c + 1) (if p cell then c else acc)
  end.

(** The same over the rows down to the first one with a time interval. *)
Fixpoint last_col_rows (rt : Runtime) (p : value -> bool) (rows : grid)
    (acc : Z) : Z :=
  match rows with
  | [] => acc
  | cells :: rest =>
    let v := last_col p cells 0 acc in
    if has_time_cell rt cells then v else last_col_rows rt p rest v
  end.


(** The table of [two_slot_grid]. *)
Definition two_slot_table : table :=
  [columns;
   [text "05.01.2024"; text "DEPARTMENT_TOTAL"; text "ALL_DAY"; VInt 3;
    VInt 7; VInt 0; VInt 0; VInt 0];
   [text "05.01.2024"; text "Ivan"; text "10:00-11:00"; VInt 1;
    VInt 0; VInt 0; VInt 0; VInt 0];
   [text "05.01.2024"; text "Ivan"; text "11:00-12:00"; VInt 2;
    VInt 0; VInt 0; VInt 0; VInt 0]].

(** * Properties *)

(** ** Strings *)

Lemma str_eqb_eq (a b : str) : str_eqb a b = true <-> a = b.
Proof.
  unfold str_eqb. destruct (list_eq_dec N.eq_dec a b); split; congruence.
Qed.

Lemma startswith_spec (p s : str) :
  startswith p s = true <-> exists b, s = p ++ b.
Proof.
  revert s. induction p as [|a p IH]; intros s; simpl.
  - split; [intros _; now exists s | reflexivity].
  - destruct s as [|c s].
    + split; [discriminate | intros [b Hb]; discriminate].
    + rewrite andb_true_iff, N.eqb_eq, IH. split.
      * intros [-> [b ->]]. now exists b.
      * intros [b Hb]. injection Hb as -> ->. split; [reflexivity | now exists b].
Qed.

Lemma contains_spec (p s : str) : contains p s = true <-> substring p s.
Proof.
  unfold substring. induction s as [|c s IH]; simpl.
  - rewrite orb_false_r, startswith_spec. split.
    + intros [b Hb]. exists [], b. exact Hb.
    + intros [a [b Hb]]. destruct a; [now exists b | discriminate].
  - rewrite orb_true_iff, startswith_spec, IH. split.
    + intros [[b Hb] | [a [b Hb]]].
      * exists [], b. exact Hb.
      * exists (c :: a), b. simpl. now rewrite Hb.
    + intros [a [b Hb]]. destruct a as [|c' a].
      * left. now exists b.
      * right. injection Hb as _ Hb. now exists a, b.
Qed.

Lemma contains_char (c : N) (s : str) : contains [c] s = true <-> In c s.
Proof.
  rewrite contains_spec. unfold substring. split.
  - intros [a [b ->]]. apply in_or_app. right. now left.
  - intros H. apply in_split in H. destruct H as [a [b ->]]. now exists a, b.
Qed.

Lemma lstrip_head (s : str) (c : N) (r : str) :
  lstrip s = c :: r -> isspace c = false.
Proof.
  induction s as [|x s IH]; simpl; [discriminate|].
  destruct (isspace x) eqn:E; [exact IH|].
  intros H. injection H as <- _. exact E.
Qed.

(** A stripped string does not end in white space. *)
Lemma strip_last (s t : str) (c : N) :
  strip s = t ++ [c] -> isspace c = false.
Proof.
  unfold strip, rstrip. intros H.
  destruct (lstrip (rev (lstrip s))) as [|x r] eqn:E.
  - destruct t; discriminate.
  - simpl in H. apply app_inj_tail in H. destruct H as [_ <-].
    exact (lstrip_head _ _ _ E).
Qed.

(** ** The builtins that depend on the interpreter *)

Section BuiltinFacts.

Variable rt : Runtime.

Lemma re_search_from_digit (b : bool) (s : str) :
  re_search_from rt [Digit] b s = true <->
  exists d, In d s /\ isdecimal rt d = true.
Proof.
  revert b. induction s as [|c s IH]; intros b; simpl.
  - split; [discriminate | intros [d [[] _]]].
  - rewrite andb_true_r, orb_true_iff, IH. split.
    + intros [H | [d [Hin Hd]]].
      * exists c. split; [now left | exact H].
      * exists d. split; [now right | exact Hd].
    + intros [d [[-> | Hin] Hd]].
      * now left.
      * right. now exists d.
Qed.

Lemma re_search_digit (s : str) :
  re_search rt digit_pattern s = true <->
  exists d, In d s /\ isdecimal rt d = true.
Proof. apply re_search_from_digit. Qed.

Lemma is_time_cell_spec (cell : value) :
  is_time_cell rt cell = true <-> time_header rt cell.
Proof.
  unfold is_time_cell, is_time_text, time_header.
  rewrite !andb_true_iff, re_search_digit.
  change (lit ":") with [chr ":"]. change (lit "-") with [chr "-"].
  rewrite !contains_char. tauto.
Qed.

Lemma has_time_cell_spec (r : row) :
  has_time_cell rt r = true <-> qualifies rt r.
Proof.
  unfold has_time_cell, qualifies. rewrite existsb_exists.
  split; intros [cell [Hin H]]; exists cell; split; try assumption;
    now apply is_time_cell_spec.
Qed.

Lemma has_time_cell_false (r : row) :
  has_time_cell rt r = false <-> ~ qualifies rt r.
Proof.
  rewrite <- has_time_cell_spec. destruct (has_time_cell rt r); split;
    congruence.
Qed.

(** What [re.match] of the date pattern accepts: ten code points, digits
    around two dots, with or without a newline after them. *)
Lemma date_pattern_match (t : str) :
  re_match rt date_pattern t = true <->
  exists d1 d2 d3 d4 d5 d6 d7 d8 tl,
    t = [d1; d2; chr "."; d3; d4; chr "."; d5; d6; d7; d8] ++ tl /\
    Forall (fun d => isdecimal rt d = true) [d1; d2; d3; d4; d5; d6; d7; d8] /\
    (tl = [] \/ tl = [10%N]).
Proof.
  unfold re_match, date_pattern. cbn [repeat app]. split.
  - intros H.
    cbn [re_match_at andb] in H.
    do 10 (destruct t as [|? t]; cbn [re_match_at accepts] in H;
           [discriminate H|];
           apply andb_true_iff in H; destruct H as [? H]).
    repeat match goal with
           | E : (_ =? _)%N = true |- _ => apply N.eqb_eq in E; subst
           end.
    do 8 eexists. exists t. split; [reflexivity|]. split.
    + repeat constructor; assumption.
    + cbn [re_match_at] in H. destruct t as [|c [|? ?]].
      * now left.
      * right. rewrite andb_true_r in H. apply N.eqb_eq in H. now subst.
      * discriminate.
  - intros (d1 & d2 & d3 & d4 & d5 & d6 & d7 & d8 & tl & -> & HF & Htl).
    repeat match goal with
           | F : Forall _ (_ :: _) |- _ => inversion F; subst; clear F
           end.
    cbn [app re_match_at accepts].
    repeat match goal with
           | E : isdecimal rt _ = true |- _ => rewrite E; clear E
           end.
    rewrite !N.eqb_refl. destruct Htl as [-> | ->]; reflexivity.
Qed.

(** [is_valid_date_cell]: text whose stripped form is DD.MM.YYYY. *)
Lemma is_valid_date_cell_spec (v : value) :
  is_valid_date_cell rt v = true <->
  exists s d1 d2 d3 d4 d5 d6 d7 d8,
    v = VStr s /\
    strip s = [d1; d2; chr "."; d3; d4; chr "."; d5; d6; d7; d8] /\
    Forall (fun d => isdecimal rt d = true) [d1; d2; d3; d4; d5; d6; d7; d8].
Proof.
  split.
  - destruct v as [| | | |s]; try discriminate. simpl. intros H.
    apply date_pattern_match in H.
    destruct H as (d1 & d2 & d3 & d4 & d5 & d6 & d7 & d8 & tl & Ht & HF & Htl).
    exists s, d1, d2, d3, d4, d5, d6, d7, d8. split; [reflexivity|].
    split; [|exact HF]. destruct Htl as [-> | ->].
    + now rewrite app_nil_r in Ht.
    + apply strip_last in Ht. discriminate Ht.
  - intros (s & d1 & d2 & d3 & d4 & d5 & d6 & d7 & d8 & -> & Hs & HF).
    simpl. apply date_pattern_match.
    exists d1, d2, d3, d4, d5, d6, d7, d8, []. rewrite app_nil_r. auto.
Qed.

Lemma date_cell_truthy (v : value) :
  is_valid_date_cell rt v = true -> truthy v = true.
Proof.
  destruct v as [| | | |s]; try discriminate.
  destruct s; [discriminate | reflexivity].
Qed.

End BuiltinFacts.

(** ** The header locator *)

Section HeaderFacts.

Variable rt : Runtime.

Ltac split_ifs :=
  repeat match goal with
         | |- context [if ?b then _ else _] => destruct b
         end.

Lemma scan_cell_timeCols (st : Scan) (c : Z) (cell : value) :
  timeCols (info (scan_cell rt st c cell)) =
  timeCols (info st) ++ (if is_time_cell rt cell then [c] else []).
Proof.
  unfold scan_cell, is_time_cell.
  destruct (is_time_text rt (lower rt (py_str rt cell)));
    split_ifs; simpl; rewrite ?app_nil_r; reflexivity.
Qed.

Lemma scan_cell_has_time (st : Scan) (c : Z) (cell : value) :
  has_time (scan_cell rt st c cell) = has_time st || is_time_cell rt cell.
Proof.
  unfold scan_cell, is_time_cell.
  destruct (is_time_text rt (lower rt (py_str rt cell))); simpl;
    [now rewrite orb_true_r | now rewrite orb_false_r].
Qed.

Lemma scan_cell_first (st : Scan) (c : Z) (cell : value) :
  first_time_col (scan_cell rt st c cell) =
  if has_time st then first_time_col st
  else if is_time_cell rt cell then c else first_time_col st.
Proof.
  unfold scan_cell, is_time_cell.
  destruct (is_time_text rt (lower rt (py_str rt cell))); simpl;
    destruct (has_time st); reflexivity.
Qed.

Lemma scan_cell_fixed (st : Scan) (c : Z) (cell : value) :
  found (info (scan_cell rt st c cell)) = found (info st) /\
  rowIdx (info (scan_cell rt st c cell)) = rowIdx (info st) /\
  managerCol (info (scan_cell rt st c cell)) = managerCol (info st).
Proof.
  unfold scan_cell.
  destruct (is_time_text rt (lower rt (py_str rt cell)));
    split_ifs; simpl; auto.
Qed.

Lemma scan_row_timeCols (cells : row) (c : Z) (st : Scan) :
  timeCols (info (scan_row rt cells c st)) =
  timeCols (info st) ++ time_cols_from rt cells c.
Proof.
  revert c st. induction cells as [|cell rest IH]; intros c st; simpl.
  - now rewrite app_nil_r.
  - rewrite IH, scan_cell_timeCols, <- app_assoc. reflexivity.
Qed.

Lemma scan_row_has_time (cells : row) (c : Z) (st : Scan) :
  has_time (scan_row rt cells c st) = has_time st || has_time_cell rt cells.
Proof.
  revert c st. induction cells as [|cell rest IH]; intros c st; simpl.
  - now rewrite orb_false_r.
  - rewrite IH, scan_cell_has_time, orb_assoc. reflexivity.
Qed.

Lemma scan_row_first (cells : row) (c : Z) (st : Scan) :
  first_time_col (scan_row rt cells c st) =
  if has_time st then first_time_col st
  else hd (first_time_col st) (time_cols_from rt cells c).
Proof.
  revert c st. induction cells as [|cell rest IH]; intros c st; simpl.
  - now destruct (has_time st).
  - rewrite IH, scan_cell_has_time, scan_cell_first.
    destruct (has_time st); [reflexivity|].
    destruct (is_time_cell rt cell); reflexivity.
Qed.

Lemma scan_row_fixed (cells : row) (c : Z) (st : Scan) :
  found (info (scan_row rt cells c st)) = found (info st) /\
  rowIdx (info (scan_row rt cells c st)) = rowIdx (info st) /\
  managerCol (info (scan_row rt cells c st)) = managerCol (info st).
Proof.
  revert c st. induction cells as [|cell rest IH]; intros c st; simpl.
  - auto.
  - destruct (IH (c + 1) (scan_cell rt st c cell)) as (-> & -> & ->).
    apply scan_cell_fixed.
Qed.

Lemma time_cols_from_nil (cells : row) (c : Z) :
  time_cols_from rt cells c = [] <-> has_time_cell rt cells = false.
Proof.
  revert c. induction cells as [|cell rest IH]; intros c; simpl.
  - tauto.
  - destruct (is_time_cell rt cell); simpl.
    + split; discriminate.
    + apply IH.
Qed.

Lemma time_cols_from_In (cells : row) (c x : Z) :
  In x (time_cols_from rt cells c) <->
  c <= x < c + len cells /\
  is_time_cell rt (getitem VNone cells (x - c)) = true.
Proof.
  unfold len, getitem. revert c.
  induction cells as [|cell rest IH]; intros c; cbn [time_cols_from].
  - simpl. split; [tauto | lia].
  - rewrite in_app_iff, IH. cbn [List.length]. split.
    + intros [H | [Hr Ht]].
      * destruct (is_time_cell rt cell) eqn:E; [|destruct H].
        destruct H as [<- | []]. rewrite Z.sub_diag. simpl. split; [lia | exact E].
      * split; [lia|].
        replace (Z.to_nat (x - c)) with (S (Z.to_nat (x - (c + 1)))) by lia.
        exact Ht.
    + intros [Hr Ht]. destruct (Z.eq_dec x c) as [-> | Hne].
      * left. rewrite Z.sub_diag in Ht. simpl in Ht. rewrite Ht. now left.
      * right. split; [lia|].
        replace (Z.to_nat (x - c)) with (S (Z.to_nat (x - (c + 1)))) in Ht by lia.
        exact Ht.
Qed.

(** The first entry is the leftmost time column; the others lie to its
    right. *)
Lemma time_cols_from_head (cells : row) (c x : Z) (rest : list Z) :
  time_cols_from rt cells c = x :: rest ->
  (forall y, c <= y < x ->
     is_time_cell rt (getitem VNone cells (y - c)) = false) /\
  (forall z, In z rest -> x < z).
Proof.
  unfold getitem. revert c.
  induction cells as [|cell tl IH]; intros c; cbn [time_cols_from].
  - discriminate.
  - destruct (is_time_cell rt cell) eqn:E; cbn [app].
    + intros H. injection H as <- <-. split; [lia|].
      intros z Hz. apply time_cols_from_In in Hz. lia.
    + intros H. destruct (IH _ H) as [Hbefore Hafter]. split; [|exact Hafter].
      assert (Hx : In x (time_cols_from rt tl (c + 1))) by (rewrite H; now left).
      apply time_cols_from_In in Hx.
      intros y Hy. destruct (Z.eq_dec y c) as [-> | Hne].
      * rewrite Z.sub_diag. exact E.
      * replace (Z.to_nat (y - c)) with (S (Z.to_nat (y - (c + 1)))) by lia.
        apply Hbefore. lia.
Qed.

End HeaderFacts.

Section HeaderRows.

Variable rt : Runtime.

Lemma first_time_row_Some (rows : grid) (k : nat) :
  first_time_row rt rows = Some k ->
  (k < List.length rows)%nat /\
  has_time_cell rt (nth k rows []) = true /\
  (forall j, (j < k)%nat -> has_time_cell rt (nth j rows []) = false).
Proof.
  revert k. induction rows as [|cells rest IH]; intros k; simpl.
  - discriminate.
  - destruct (has_time_cell rt cells) eqn:E.
    + intros H. injection H as <-. repeat split; [lia | exact E | lia].
    + destruct (first_time_row rt rest) as [k'|]; [|discriminate].
      intros H. injection H as <-. destruct (IH k' eq_refl) as (Hk & Ht & Hb).
      repeat split; [lia | exact Ht |].
      intros [|j] Hj; [exact E | apply Hb; lia].
Qed.

Lemma first_time_row_None (rows : grid) :
  first_time_row rt rows = None <->
  (forall j, (j < List.length rows)%nat ->
     has_time_cell rt (nth j rows []) = false).
Proof.
  induction rows as [|cells rest IH]; simpl.
  - split; [intros _ j Hj; lia | reflexivity].
  - destruct (has_time_cell rt cells) eqn:E.
    + split; [discriminate|]. intros H. specialize (H O). simpl in H.
      rewrite E in H. discriminate H. lia.
    + destruct (first_time_row rt rest) as [k'|] eqn:F; simpl.
      * split; [discriminate|]. intros H.
        destruct (first_time_row_Some _ _ F) as (Hk & Ht & _).
        specialize (H (S k')). simpl in H. rewrite Ht in H.
        discriminate H. lia.
      * split; [|reflexivity]. intros _ [|j] Hj; [exact E|].
        apply IH; [reflexivity | lia].
Qed.

(** The loop over the rows started with no time column recorded: it ends
    at the first row that has one, or leaves the info as it was. *)
Lemma scan_rows_spec (rows : grid) (r : Z) (i : Info) :
  timeCols i = [] ->
  let h := scan_rows rt rows r i in
  match first_time_row rt rows with
  | Some k =>
    found h = true /\ rowIdx h = r + Z.of_nat k /\
    timeCols h = time_cols_from rt (nth k rows []) 0 /\
    managerCol h = Z.max 0 (hd (-1) (timeCols h) - 1)
  | None =>
    found h = found i /\ rowIdx h = rowIdx i /\
    managerCol h = managerCol i /\ timeCols h = []
  end.
Proof.
  revert r i. induction rows as [|cells rest IH]; intros r i Hi; simpl.
  - auto.
  - set (st := scan_row rt cells 0
                 {| info := i; has_time := false; first_time_col := -1 |}).
    assert (Hh : has_time st = has_time_cell rt cells)
      by (unfold st; now rewrite scan_row_has_time).
    assert (Ht : timeCols (info st) = time_cols_from rt cells 0)
      by (unfold st; rewrite scan_row_timeCols; simpl; now rewrite Hi).
    assert (Hf : first_time_col st = hd (-1) (time_cols_from rt cells 0))
      by (unfold st; now rewrite scan_row_first).
    destruct (scan_row_fixed rt cells 0
                {| info := i; has_time := false; first_time_col := -1 |})
      as (Hfo & Hro & Hma). fold st in Hfo, Hro, Hma. simpl in Hfo, Hro, Hma.
    rewrite Hh. destruct (has_time_cell rt cells) eqn:E.
    + simpl. rewrite Ht, Hf. repeat split. lia.
    + assert (Hnil : timeCols (info st) = [])
        by (rewrite Ht; now apply time_cols_from_nil).
      specialize (IH (r + 1) (info st) Hnil). simpl in IH.
      destruct (first_time_row rt rest) as [k|]; simpl.
      * destruct IH as (H1 & H2 & H3 & H4). repeat split; try assumption. lia.
      * destruct IH as (H1 & H2 & H3 & H4). repeat split; congruence.
Qed.

(** Rows after the first one with a time column are not read. *)
Lemma scan_rows_app (p q : grid) (k : nat) (r : Z) (i : Info) :
  first_time_row rt p = Some k ->
  scan_rows rt (p ++ q) r i = scan_rows rt p r i.
Proof.
  revert k r i. induction p as [|cells rest IH]; intros k r i; simpl.
  - discriminate.
  - rewrite scan_row_has_time. simpl.
    destruct (has_time_cell rt cells); [reflexivity|].
    destruct (first_time_row rt rest) as [k'|] eqn:F; [|discriminate].
    intros _. now apply (IH k').
Qed.

Lemma first_time_row_firstn (rows : grid) (k : nat) :
  first_time_row rt rows = Some k ->
  first_time_row rt (firstn (S k) rows) = Some k.
Proof.
  revert k. induction rows as [|cells rest IH]; intros k.
  - discriminate.
  - cbn [first_time_row firstn].
    destruct (has_time_cell rt cells); [congruence|].
    destruct (first_time_row rt rest) as [k'|] eqn:F; [|discriminate].
    intros H. injection H as <-. now rewrite (IH k' eq_refl).
Qed.

Lemma scanned_nth (data : grid) (k : nat) :
  (k < List.length (scanned data))%nat -> nth k (scanned data) [] = nth k data [].
Proof.
  unfold scanned. rewrite length_firstn, nth_firstn.
  intros H. destruct (Nat.ltb_spec k (Nat.min 10 (List.length data))); [reflexivity | lia].
Qed.

Lemma scanned_length (data : grid) :
  List.length (scanned data) = Nat.min 10 (List.length data).
Proof. unfold scanned. rewrite length_firstn. lia. Qed.

(** The header info of a grid in which a header is found. *)
Lemma find_header_found (data : grid) :
  let h := find_header_row_and_cols rt data in
  found h = true ->
  exists k,
    first_time_row rt (scanned data) = Some k /\
    (k < Nat.min 10 (List.length data))%nat /\
    rowIdx h = Z.of_nat k /\
    timeCols h = time_cols_from rt (getitem [] data (rowIdx h)) 0 /\
    managerCol h = Z.max 0 (hd (-1) (timeCols h) - 1).
Proof.
  intros h Hf. unfold h, find_header_row_and_cols in *. fold (scanned data) in *.
  pose proof (scan_rows_spec (scanned data) 0 init_info eq_refl) as S.
  simpl in S. destruct (first_time_row rt (scanned data)) as [k|] eqn:F.
  - destruct S as (_ & Hr & Ht & Hm). exists k.
    destruct (first_time_row_Some _ _ F) as (Hk & _ & _).
    pose proof (scanned_length data) as L.
    repeat split; try assumption; try lia.
    rewrite Ht, Hr. unfold getitem. simpl. rewrite Nat2Z.id.
    now rewrite scanned_nth by lia.
  - destruct S as (S & _). rewrite S in Hf. discriminate Hf.
Qed.

Lemma find_header_not_found (data : grid) :
  let h := find_header_row_and_cols rt data in
  found h = false ->
  first_time_row rt (scanned data) = None /\ timeCols h = [] /\ rowIdx h = -1.
Proof.
  intros h Hf. unfold h, find_header_row_and_cols in *. fold (scanned data) in *.
  pose proof (scan_rows_spec (scanned data) 0 init_info eq_refl) as S.
  simpl in S. destruct (first_time_row rt (scanned data)) as [k|] eqn:F.
  - destruct S as (S & _). rewrite S in Hf. discriminate Hf.
  - destruct S as (_ & Hr & _ & Ht). auto.
Qed.

End HeaderRows.

Section HeaderClaims.

Variable rt : Runtime.

Lemma header_prefix (data : grid) (k : nat) :
  first_time_row rt (scanned data) = Some k ->
  first_time_row rt (firstn (S k) data) = Some k /\
  find_header_row_and_cols rt data =
  scan_rows rt (firstn (S k) data) 0 init_info.
Proof.
  intros F. destruct (first_time_row_Some _ _ _ F) as (Hk & _ & _).
  rewrite scanned_length in Hk.
  assert (P : firstn (S k) (scanned data) = firstn (S k) data).
  { unfold scanned. rewrite firstn_firstn. f_equal. lia. }
  split.
  - rewrite <- P. now apply first_time_row_firstn.
  - unfold find_header_row_and_cols. fold (scanned data).
    rewrite <- (firstn_skipn (S k) (scanned data)) at 1.
    rewrite P. apply scan_rows_app with (k := k).
    rewrite <- P. now apply first_time_row_firstn.
Qed.

Lemma header_of_prefix (data : grid) (k : nat) :
  (k < 10)%nat -> (k < List.length data)%nat ->
  first_time_row rt (firstn (S k) data) = Some k ->
  find_header_row_and_cols rt data =
  scan_rows rt (firstn (S k) data) 0 init_info.
Proof.
  intros H10 Hlen F.
  assert (P : firstn (S k) (scanned data) = firstn (S k) data).
  { unfold scanned. rewrite firstn_firstn. f_equal. lia. }
  unfold find_header_row_and_cols. fold (scanned data).
  rewrite <- (firstn_skipn (S k) (scanned data)) at 1.
  rewrite P. now apply scan_rows_app with (k := k).
Qed.

(** C4.  [find_header_row_and_cols] reads the rows 0 .. min(10, rowCount)-1
    only; when it finds a header, the header row is the first of these rows
    with a cell whose lowercased text holds ":", "-" and a digit, and every
    grid with the same rows up to and including that one gets the same
    answer (so the same rowIdx), whatever the rows below hold; it reports
    found = false exactly when none of the rows read qualifies. *)
Theorem find_header_first_qualifying_row (data : grid) :
  let h := find_header_row_and_cols rt data in
  find_header_row_and_cols rt (firstn 10 data) = h /\
  (found h = true ->
     0 <= rowIdx h < Z.min 10 (len data) /\
     qualifies rt (getitem [] data (rowIdx h)) /\
     (forall r, 0 <= r < rowIdx h -> ~ qualifies rt (getitem [] data r)) /\
     (forall data',
        firstn (S (Z.to_nat (rowIdx h))) data' =
        firstn (S (Z.to_nat (rowIdx h))) data ->
        find_header_row_and_cols rt data' = h /\
        rowIdx (find_header_row_and_cols rt data') = rowIdx h)) /\
  (found h = false <->
     forall r, 0 <= r < Z.min 10 (len data) ->
       ~ qualifies rt (getitem [] data r)).
Proof.
  intros h.
  assert (Hfound : found h = true ->
     0 <= rowIdx h < Z.min 10 (len data) /\
     qualifies rt (getitem [] data (rowIdx h)) /\
     (forall r, 0 <= r < rowIdx h -> ~ qualifies rt (getitem [] data r)) /\
     (forall data',
        firstn (S (Z.to_nat (rowIdx h))) data' =
        firstn (S (Z.to_nat (rowIdx h))) data ->
        find_header_row_and_cols rt data' = h /\
        rowIdx (find_header_row_and_cols rt data') = rowIdx h)).
  { intros Hf. destruct (find_header_found rt data Hf) as (k & F & Hk & Hr & _).
    fold h in Hr. destruct (first_time_row_Some _ _ _ F) as (Hks & Ht & Hb).
    unfold len, getitem. rewrite Hr, Nat2Z.id.
    split; [lia|]. split; [|split].
    - apply has_time_cell_spec. rewrite <- (scanned_nth data) by exact Hks.
      exact Ht.
    - intros r Hrange. apply has_time_cell_false.
      rewrite <- (scanned_nth data) by lia. apply Hb. lia.
    - intros data' Hsame.
      destruct (header_prefix _ _ F) as (Fp & Hh). fold h in Hh.
      assert (E : find_header_row_and_cols rt data' = h).
      { rewrite Hh. rewrite <- Hsame in Fp |- *.
        apply header_of_prefix; try assumption; try lia.
        assert (L : List.length (firstn (S k) data') =
                    List.length (firstn (S k) data)) by now rewrite Hsame.
        rewrite !length_firstn in L. lia. }
      split; [exact E | now rewrite E]. }
  split; [|split; [exact Hfound|]].
  - unfold h, find_header_row_and_cols.
    rewrite length_firstn, firstn_firstn.
    replace (Nat.min (Nat.min 10 (Nat.min 10 (List.length data))) 10)
      with (Nat.min 10 (List.length data)) by lia.
    reflexivity.
  - split.
    + intros Hf r Hrange. destruct (find_header_not_found rt data Hf) as (F & _).
      apply has_time_cell_false. unfold getitem.
      rewrite <- (scanned_nth data) by (rewrite scanned_length; unfold len in Hrange; lia).
      apply (proj1 (first_time_row_None rt _) F).
      rewrite scanned_length. unfold len in Hrange. lia.
    + intros Hall. destruct (found h) eqn:Hf; [|reflexivity].
      destruct (Hfound eq_refl) as (Hrange & Hq & _).
      exfalso. exact (Hall _ Hrange Hq).
Qed.

(** The first time column of a found header. *)
Lemma found_first_time_col (data : grid) :
  let h := find_header_row_and_cols rt data in
  let hrow := getitem [] data (rowIdx h) in
  found h = true ->
  exists c rest,
    timeCols h = c :: rest /\
    0 <= c < len hrow /\
    time_header rt (getitem VNone hrow c) /\
    (forall c', 0 <= c' < c -> ~ time_header rt (getitem VNone hrow c')) /\
    managerCol h = Z.max 0 (c - 1).
Proof.
  intros h hrow Hf.
  destruct (find_header_found rt data Hf) as (k & F & Hk & Hr & Ht & Hm).
  fold h in Hr, Ht, Hm. fold hrow in Ht.
  destruct (first_time_row_Some _ _ _ F) as (Hks & Hc & _).
  rewrite scanned_nth in Hc by exact Hks.
  assert (Hrow : hrow = nth k data []).
  { unfold hrow, getitem. now rewrite Hr, Nat2Z.id. }
  rewrite <- Hrow in Hc.
  destruct (timeCols h) as [|c rest] eqn:T.
  - symmetry in Ht. apply time_cols_from_nil in Ht. congruence.
  - exists c, rest. split; [reflexivity|].
    assert (Hin : In c (time_cols_from rt hrow 0)) by (rewrite <- Ht; now left).
    apply time_cols_from_In in Hin. rewrite Z.sub_0_r in Hin.
    destruct Hin as (Hrange & Htime).
    symmetry in Ht. destruct (time_cols_from_head rt _ _ _ _ Ht) as (Hbefore & _).
    split; [lia|]. split; [|split].
    + now apply is_time_cell_spec.
    + intros c' Hc' Hth. apply is_time_cell_spec in Hth.
      specialize (Hbefore c' Hc'). rewrite Z.sub_0_r in Hbefore. congruence.
    + simpl in Hm. exact Hm.
Qed.

(** C8.  The header info of every grid: timeCols is non-empty exactly when
    found is true, and then managerCol is max(0, c - 1) for the first entry
    [c] of timeCols, which is the leftmost time-interval column of the
    header row. *)
Theorem header_info_invariant (data : grid) :
  let h := find_header_row_and_cols rt data in
  let hrow := getitem [] data (rowIdx h) in
  (timeCols h <> [] <-> found h = true) /\
  (found h = true ->
     exists c rest,
       timeCols h = c :: rest /\
       0 <= c < len hrow /\
       time_header rt (getitem VNone hrow c) /\
       (forall c', 0 <= c' < c -> ~ time_header rt (getitem VNone hrow c')) /\
       managerCol h = Z.max 0 (c - 1)).
Proof.
  intros h hrow. split; [|apply found_first_time_col]. split.
  - intros Hne. destruct (found h) eqn:Hf; [reflexivity|].
    destruct (find_header_not_found rt data Hf) as (_ & Ht & _). contradiction.
  - intros Hf. destruct (found_first_time_col data Hf) as (c & rest & Hc & _).
    fold h in Hc. rewrite Hc. discriminate.
Qed.

End HeaderClaims.

(** ** The table builder *)

Lemma range_snoc (a : Z) (n : nat) :
  range a (a + Z.of_nat (S n)) = range a (a + Z.of_nat n) ++ [a + Z.of_nat n].
Proof.
  unfold range.
  replace (Z.to_nat (a + Z.of_nat (S n) - a)) with (S n) by lia.
  replace (Z.to_nat (a + Z.of_nat n - a)) with n by lia.
  now rewrite seq_S, map_app.
Qed.

Lemma range_In (a b i : Z) : In i (range a b) <-> a <= i < b.
Proof.
  unfold range. rewrite in_map_iff. split.
  - intros [k [<- Hk]]. apply in_seq in Hk. lia.
  - intros H. exists (Z.to_nat (i - a)). split; [lia|]. apply in_seq. lia.
Qed.

Lemma range_nat (a b : Z) :
  a <= b -> b = a + Z.of_nat (Z.to_nat (b - a)).
Proof. lia. Qed.

Section BuildFacts.

Variable rt : Runtime.
Variable data : grid.
Variable h : Info.

Lemma emit_app (r : row) (o cd : value) (result : table) (tc : Z) :
  emit rt data h r o cd result tc = result ++ emit rt data h r o cd [] tc.
Proof.
  unfold emit. cbv zeta.
  destruct (eq_str o DEPARTMENT_TOTAL);
    [destruct (tc =? getitem 0 (timeCols h) 0)|];
    rewrite ?app_nil_r; reflexivity.
Qed.

Lemma fold_emit (r : row) (o cd : value) (tcs : list Z) (result : table) :
  fold_left (emit rt data h r o cd) tcs result =
  result ++ flat_map (emit rt data h r o cd []) tcs.
Proof.
  revert result. induction tcs as [|tc tcs IH]; intros result; simpl.
  - now rewrite app_nil_r.
  - rewrite IH, emit_app, <- app_assoc. reflexivity.
Qed.

Lemma build_row_step (cd : value) (result : table) (i : Z) :
  build_row rt data h (cd, result) i =
  (date_step rt data h cd i,
   result ++ row_records rt data h (date_step rt data h cd i) i).
Proof.
  unfold build_row, row_records, date_step, is_date_row. cbv zeta.
  set (r := getitem [] data i). set (cell := manager_cell h r).
  set (cd' := if is_valid_date_cell rt cell then cell else cd).
  destruct (truthy (owner_of rt h r cell cd') && truthy cd').
  - rewrite !fold_emit. reflexivity.
  - now rewrite app_nil_r.
Qed.

(** The state after the rows [a .. a+n-1]. *)
Lemma build_fold (n : nat) (a : Z) (cd : value) (result : table) :
  fold_left (build_row rt data h) (range a (a + Z.of_nat n)) (cd, result) =
  (fold_left (date_step rt data h) (range a (a + Z.of_nat n)) cd,
   result ++
   flat_map
     (fun i => row_records rt data h
                 (fold_left (date_step rt data h) (range a (i + 1)) cd) i)
     (range a (a + Z.of_nat n))).
Proof.
  induction n as [|n IH].
  - rewrite Z.add_0_r. unfold range. rewrite Z.sub_diag. simpl.
    now rewrite app_nil_r.
  - assert (Hd : fold_left (date_step rt data h)
                   (range a (a + Z.of_nat n + 1)) cd =
                 date_step rt data h
                   (fold_left (date_step rt data h)
                      (range a (a + Z.of_nat n)) cd) (a + Z.of_nat n)).
    { replace (a + Z.of_nat n + 1) with (a + Z.of_nat (S n)) by lia.
      now rewrite range_snoc, fold_left_app. }
    rewrite range_snoc, !fold_left_app, IH. cbn [fold_left].
    rewrite build_row_step, flat_map_app. cbn [flat_map].
    rewrite app_nil_r, <- app_assoc, Hd. reflexivity.
Qed.

(** The date in force after the rows [a .. a+n-1]: the start value when
    none of them holds a date, else the manager cell of the last one that
    does. *)
Lemma date_fold (n : nat) (a : Z) (cd : value) :
  let d := fold_left (date_step rt data h) (range a (a + Z.of_nat n)) cd in
  ((forall j, a <= j < a + Z.of_nat n -> is_date_row rt data h j = false) /\
   d = cd) \/
  (exists j, a <= j < a + Z.of_nat n /\
     is_date_row rt data h j = true /\
     d = manager_cell h (getitem [] data j) /\
     forall k, j < k < a + Z.of_nat n -> is_date_row rt data h k = false).
Proof.
  induction n as [|n IH]; cbv zeta.
  - left. split; [intros j Hj; lia|].
    rewrite Z.add_0_r. unfold range. now rewrite Z.sub_diag.
  - rewrite range_snoc, fold_left_app. cbn [fold_left].
    set (d0 := fold_left (date_step rt data h) (range a (a + Z.of_nat n)) cd)
      in *.
    change (date_step rt data h d0 (a + Z.of_nat n))
      with (if is_date_row rt data h (a + Z.of_nat n)
            then manager_cell h (getitem [] data (a + Z.of_nat n)) else d0).
    destruct (is_date_row rt data h (a + Z.of_nat n)) eqn:E.
    + right. exists (a + Z.of_nat n).
      split; [lia|]. split; [exact E|]. split; [reflexivity|].
      intros k Hk. lia.
    + cbv zeta in IH. destruct IH as [[Hnone Hd] | (j & Hj & Hdate & Hd & Hlast)].
      * left. split; [|exact Hd]. intros j Hj.
        destruct (Z.eq_dec j (a + Z.of_nat n)) as [-> | Hne]; [exact E|].
        apply Hnone. lia.
      * right. exists j.
        split; [lia|]. split; [exact Hdate|]. split; [exact Hd|].
        intros k Hk. destruct (Z.eq_dec k (a + Z.of_nat n)) as [-> | Hne];
          [exact E | apply Hlast; lia].
Qed.

(** The date in force at a data row. *)
Lemma date_at_spec (i : Z) :
  rowIdx h < i ->
  ((forall j, rowIdx h < j <= i -> is_date_row rt data h j = false) /\
   date_at rt data h i = VNone) \/
  (exists j, rowIdx h < j <= i /\
     is_date_row rt data h j = true /\
     date_at rt data h i = manager_cell h (getitem [] data j) /\
     forall k, j < k <= i -> is_date_row rt data h k = false).
Proof.
  intros Hi. unfold date_at.
  rewrite (range_nat (rowIdx h + 1) (i + 1)) by lia.
  set (n := Z.to_nat (i + 1 - (rowIdx h + 1))).
  assert (Hn : rowIdx h + 1 + Z.of_nat n = i + 1) by lia.
  destruct (date_fold n (rowIdx h + 1) VNone)
    as [[Hnone Hd] | (j & Hj & Hdate & Hd & Hlast)].
  - left. split; [|exact Hd]. intros j Hj. apply Hnone. lia.
  - right. exists j.
    split; [lia|]. split; [exact Hdate|]. split; [exact Hd|].
    intros k Hk. apply Hlast. lia.
Qed.

End BuildFacts.

Section EmitFacts.

Variable rt : Runtime.

Lemma eq_str_true (v : value) (s : str) :
  eq_str v s = true <-> v = VStr s.
Proof.
  destruct v; simpl; try (split; [discriminate | intros H; discriminate H]).
  rewrite str_eqb_eq. split; congruence.
Qed.

Lemma getitem_In {A} (d : A) (l : list A) (i : Z) :
  0 <= i < len l -> In (getitem d l i) l.
Proof. unfold len, getitem. intros H. apply nth_In. lia. Qed.

(** The accessor of the aggregate columns, case by case. *)
Lemma get_val_cases (r : row) (idx : Z) :
  (idx <= -1 \/ len r <= idx -> get_val r idx = VInt 0) /\
  (0 <= idx < len r -> is_blank (getitem VNone r idx) = true ->
   get_val r idx = VInt 0) /\
  (0 <= idx < len r -> is_blank (getitem VNone r idx) = false ->
   get_val r idx = getitem VNone r idx).
Proof.
  unfold get_val. rewrite Z.geb_leb.
  destruct (Z.leb_spec idx (-1)), (Z.leb_spec (len r) idx); simpl;
    repeat split; intros; try lia; try reflexivity;
    match goal with H : is_blank _ = _ |- _ => now rewrite H end.
Qed.

Lemma get_val_passed_through (r : row) (idx : Z) :
  passed_through r (get_val r idx).
Proof.
  destruct (get_val_cases r idx) as (Hout & Hblank & Hcell).
  destruct (Z.leb_spec idx (-1)); [left; apply Hout; lia|].
  destruct (Z.leb_spec (len r) idx); [left; apply Hout; lia|].
  destruct (is_blank (getitem VNone r idx)) eqn:E.
  - left. apply Hblank; [lia | reflexivity].
  - right. rewrite Hcell by (lia || reflexivity). split; [|exact E].
    apply getitem_In. lia.
Qed.

(** The Offers expression of the emission loop is the accessor at the time
    column. *)
Lemma offers_get_val (r : row) (tc : Z) :
  0 <= tc ->
  (if (tc <? len r) && negb (is_blank (getitem VNone r tc))
   then getitem VNone r tc else VInt 0) = get_val r tc.
Proof.
  intros H. unfold get_val. rewrite Z.geb_leb.
  destruct (Z.leb_spec tc (-1)); [lia|].
  destruct (Z.ltb_spec tc (len r)), (Z.leb_spec (len r) tc); try lia; simpl;
    [|reflexivity].
  now destruct (is_blank (getitem VNone r tc)).
Qed.

Variable data : grid.
Variable h : Info.

Lemma emit_department (r : row) (cd : value) (tc : Z) :
  0 <= tc ->
  emit rt data h r (VStr DEPARTMENT_TOTAL) cd [] tc =
  if tc =? getitem 0 (timeCols h) 0
  then [department_total_record h r cd tc] else [].
Proof.
  intros H. unfold emit, department_total_record. cbv zeta.
  rewrite offers_get_val by exact H.
  replace (eq_str (VStr DEPARTMENT_TOTAL) DEPARTMENT_TOTAL) with true
    by (symmetry; now apply eq_str_true).
  now destruct (tc =? getitem 0 (timeCols h) 0).
Qed.

Lemma emit_manager (r : row) (o cd : value) (tc : Z) :
  eq_str o DEPARTMENT_TOTAL = false ->
  0 <= tc < len (getitem [] data (rowIdx h)) ->
  emit rt data h r o cd [] tc =
  [manager_record rt h (getitem [] data (rowIdx h)) r cd o tc].
Proof.
  intros Ho H. unfold emit, manager_record. cbv zeta.
  rewrite offers_get_val by lia. rewrite Ho.
  destruct (Z.ltb_spec tc (len (getitem [] data (rowIdx h)))); [|lia].
  reflexivity.
Qed.

(** Every record the loop body appends: the date, the owner, an interval
    and five values that are 0 or cells of the row. *)
Lemma emit_In (r : row) (o cd : value) (tc : Z) (rec : record) :
  In rec (emit rt data h r o cd [] tc) ->
  exists interval offers total warm warm_off conv,
    rec = [cd; o; interval; offers; total; warm; warm_off; conv] /\
    passed_through r offers /\ passed_through r total /\
    passed_through r warm /\ passed_through r warm_off /\
    passed_through r conv.
Proof.
  unfold emit. cbv zeta.
  set (offers := if (tc <? len r) && negb (is_blank (getitem VNone r tc))
                 then getitem VNone r tc else VInt 0).
  assert (Hoff : passed_through r offers).
  { unfold offers. destruct (Z.ltb_spec tc (len r)); simpl; [|now left].
    destruct (is_blank (getitem VNone r tc)) eqn:E; simpl; [now left|].
    destruct (Z.leb_spec 0 tc).
    - right. split; [apply getitem_In; lia | exact E].
    - right. split; [|exact E]. unfold getitem in *.
      replace (Z.to_nat tc) with O in * by lia.
      destruct r as [|c r']; [discriminate E | now left]. }
  intros Hin.
  assert (Hrec : exists interval,
            rec = [cd; o; interval; offers; get_val r (totalCol h);
                   get_val r (warmCol h); get_val r (warmOffCol h);
                   get_val r (convCol h)]).
  { destruct (eq_str o DEPARTMENT_TOTAL);
      [destruct (tc =? getitem 0 (timeCols h) 0)|]; simpl in Hin;
      try contradiction; destruct Hin as [<- | []]; eexists; reflexivity. }
  destruct Hrec as [interval ->].
  exists interval, offers, (get_val r (totalCol h)), (get_val r (warmCol h)),
    (get_val r (warmOffCol h)), (get_val r (convCol h)).
  split; [reflexivity|]. split; [exact Hoff|].
  repeat split; apply get_val_passed_through.
Qed.

Lemma row_records_In (cd : value) (i : Z) (rec : record) :
  In rec (row_records rt data h cd i) ->
  truthy cd = true /\
  exists owner interval offers total warm warm_off conv,
    rec = [cd; owner; interval; offers; total; warm; warm_off; conv] /\
    let r := getitem [] data i in
    passed_through r offers /\ passed_through r total /\
    passed_through r warm /\ passed_through r warm_off /\
    passed_through r conv.
Proof.
  unfold row_records. cbv zeta.
  set (r := getitem [] data i).
  set (o := owner_of rt h r (manager_cell h r) cd).
  destruct (truthy o && truthy cd) eqn:E; [|contradiction].
  apply andb_true_iff in E. destruct E as [_ Hcd].
  rewrite fold_emit. simpl. intros Hin. apply in_flat_map in Hin.
  destruct Hin as (tc & _ & Hin). split; [exact Hcd|].
  exists o. now apply emit_In with (tc := tc).
Qed.

End EmitFacts.

Section BuildClaims.

Variable rt : Runtime.

(** The table is the header record followed by the records of the data
    rows, row after row. *)
Lemma build_db_result_rows (data : grid) :
  let h := find_header_row_and_cols rt data in
  found h = true ->
  build_db_result rt data =
  (Some (columns :: flat_map (records_of_row rt data h) (data_rows data h)),
   None).
Proof.
  intros h Hf. unfold build_db_result. cbv zeta. fold h. rewrite Hf.
  cbn [negb]. unfold data_rows.
  destruct (find_header_found rt data Hf) as (k & _ & Hk & Hr & _).
  fold h in Hr.
  rewrite (range_nat (rowIdx h + 1) (len data)) by (unfold len; lia).
  rewrite build_fold. reflexivity.
Qed.

Lemma build_db_result_no_header (data : grid) :
  found (find_header_row_and_cols rt data) = false ->
  build_db_result rt data = (None, Some no_header_message).
Proof. intros Hf. unfold build_db_result. cbv zeta. now rewrite Hf. Qed.

(** The time columns of a found header: columns of the header row, the
    first one to the left of all the others. *)
Lemma header_timeCols (data : grid) :
  let h := find_header_row_and_cols rt data in
  found h = true ->
  exists tc0 rest,
    timeCols h = tc0 :: rest /\
    (forall tc, In tc (timeCols h) ->
       0 <= tc < len (getitem [] data (rowIdx h))) /\
    (forall z, In z rest -> tc0 < z).
Proof.
  intros h Hf.
  destruct (find_header_found rt data Hf) as (k & _ & _ & _ & Ht & _).
  fold h in Ht.
  destruct (found_first_time_col rt data Hf) as (c & rest & Hc & _).
  fold h in Hc. exists c, rest. split; [exact Hc|]. split.
  - intros tc Hin. rewrite Ht in Hin. apply time_cols_from_In in Hin. lia.
  - rewrite Hc in Ht. symmetry in Ht.
    now destruct (time_cols_from_head rt _ _ _ _ Ht).
Qed.

Lemma flat_map_department (data : grid) (h : Info) (r : row) (cd : value)
    (tc0 : Z) (rest : list Z) :
  timeCols h = tc0 :: rest -> 0 <= tc0 ->
  (forall z, In z rest -> tc0 < z) ->
  flat_map (emit rt data h r (VStr DEPARTMENT_TOTAL) cd []) (timeCols h) =
  [department_total_record h r cd tc0].
Proof.
  intros Ht H0 Hrest.
  assert (Hnone : forall l, (forall z, In z l -> tc0 < z) ->
            flat_map (emit rt data h r (VStr DEPARTMENT_TOTAL) cd []) l = []).
  { induction l as [|z l IH]; intros Hl; [reflexivity|].
    cbn [flat_map].
    rewrite emit_department by (specialize (Hl z (or_introl eq_refl)); lia).
    rewrite Ht. unfold getitem at 1. simpl nth.
    destruct (Z.eqb_spec z tc0) as [-> | _].
    - specialize (Hl tc0 (or_introl eq_refl)). lia.
    - simpl. apply IH. intros y Hy. apply Hl. now right. }
  rewrite Ht. cbn [flat_map]. rewrite emit_department by exact H0.
  rewrite Ht. unfold getitem at 1. simpl nth. rewrite Z.eqb_refl.
  rewrite (Hnone rest Hrest). reflexivity.
Qed.

Lemma flat_map_manager (data : grid) (h : Info) (r : row) (o cd : value)
    (tcs : list Z) :
  eq_str o DEPARTMENT_TOTAL = false ->
  (forall tc, In tc tcs -> 0 <= tc < len (getitem [] data (rowIdx h))) ->
  flat_map (emit rt data h r o cd []) tcs =
  map (manager_record rt h (getitem [] data (rowIdx h)) r cd o) tcs.
Proof.
  intros Ho. induction tcs as [|tc tcs IH]; intros Hin; [reflexivity|].
  cbn [flat_map map]. rewrite emit_manager; [|exact Ho|apply Hin; now left].
  simpl. f_equal. apply IH. intros y Hy. apply Hin. now right.
Qed.

End BuildClaims.

Section TableClaims.

Variable rt : Runtime.

(** A row with a date in force has a date row at or above it. *)
Lemma date_in_force (data : grid) (h : Info) (i : Z) :
  rowIdx h < i ->
  truthy (date_at rt data h i) = true ->
  exists j, rowIdx h < j <= i /\
    is_date_row rt data h j = true /\
    date_at rt data h i = manager_cell h (getitem [] data j) /\
    forall k, j < k <= i -> is_date_row rt data h k = false.
Proof.
  intros Hi Ht.
  destruct (date_at_spec rt data h i Hi) as [[_ Hd] | H]; [|exact H].
  rewrite Hd in Ht. discriminate Ht.
Qed.

(** C2.  In the table of a grid with a detected header, the Date of every
    record of a data row [i] is the manager-column cell of the last row
    [j], below the header and at or above [i], whose manager-column cell
    satisfies [is_valid_date_cell]; and a row with no such row at or above
    it adds no record. *)
Theorem record_date_is_latest_date (data : grid) :
  let h := find_header_row_and_cols rt data in
  let date_cell := fun j => manager_cell h (getitem [] data j) in
  found h = true ->
  build_db_result rt data =
    (Some (columns :: flat_map (records_of_row rt data h) (data_rows data h)),
     None) /\
  forall i, In i (data_rows data h) ->
    (forall rec, In rec (records_of_row rt data h i) ->
       exists j, rowIdx h < j <= i /\
         is_valid_date_cell rt (date_cell j) = true /\
         date_field rec = date_cell j /\
         forall k, j < k <= i -> is_valid_date_cell rt (date_cell k) = false) /\
    ((forall j, rowIdx h < j <= i ->
        is_valid_date_cell rt (date_cell j) = false) ->
     records_of_row rt data h i = []).
Proof.
  intros h date_cell Hf. split; [now apply build_db_result_rows|].
  intros i Hi. apply range_In in Hi. split.
  - intros rec Hrec. apply row_records_In in Hrec.
    destruct Hrec as (Ht & owner & interval & offers & total & warm & warm_off
                      & conv & -> & _).
    destruct (date_in_force data h i) as (j & Hj & Hdate & Hd & Hlast);
      [lia | exact Ht |].
    exists j. split; [exact Hj|]. split; [exact Hdate|]. split; [exact Hd|].
    exact Hlast.
  - intros Hnone. unfold records_of_row, row_records. cbv zeta.
    destruct (date_at_spec rt data h i) as [[_ Hd] | (j & Hj & Hdate & _)];
      [lia | |].
    + rewrite Hd. simpl. now rewrite andb_false_r.
    + pose proof (Hnone j Hj) as Hn. unfold date_cell in Hn.
      unfold is_date_row in Hdate. congruence.
Qed.

Lemma date_row_gives_date (data : grid) (h : Info) (i : Z) :
  rowIdx h < i ->
  is_date_row rt data h i = true ->
  truthy (date_at rt data h i) = true.
Proof.
  intros Hi Hrow.
  destruct (date_at_spec rt data h i Hi)
    as [[Hnone _] | (j & Hj & Hdate & Hd & _)].
  - rewrite Hnone in Hrow by lia. discriminate Hrow.
  - rewrite Hd. now apply date_cell_truthy with (rt := rt).
Qed.

(** C1, amended.  In the table of a grid with a detected header, a data row
    adds records only when it has an owner and a date is in force.  Then a
    row whose owner is DEPARTMENT_TOTAL adds exactly one record, with
    Time_Interval "ALL_DAY" and Offers from the cell of the first time
    column; a row with any other owner adds exactly one record per entry of
    timeCols, in that order, with Time_Interval the header-row label of the
    column and Offers the cell of the column.  A row that owes the owner
    DEPARTMENT_TOTAL to the classification (not to a manager cell that
    reads DEPARTMENT_TOTAL) always has a date in force. *)
Theorem records_of_owned_rows (data : grid) (i : Z) :
  let h := find_header_row_and_cols rt data in
  let hrow := getitem [] data (rowIdx h) in
  let r := getitem [] data i in
  let date := date_at rt data h i in
  let owner := owner_at rt data h i in
  found h = true ->
  In i (data_rows data h) ->
  build_db_result rt data =
    (Some (columns :: flat_map (records_of_row rt data h) (data_rows data h)),
     None) /\
  (truthy owner = false \/ truthy date = false ->
   records_of_row rt data h i = []) /\
  (owner = VStr DEPARTMENT_TOTAL -> truthy date = true ->
   exists tc0 rest,
     timeCols h = tc0 :: rest /\
     records_of_row rt data h i = [department_total_record h r date tc0]) /\
  (truthy owner = true -> owner <> VStr DEPARTMENT_TOTAL ->
   truthy date = true ->
   records_of_row rt data h i =
   map (manager_record rt h hrow r date owner) (timeCols h)) /\
  (owner = VStr DEPARTMENT_TOTAL ->
   strip (py_str rt (manager_cell h r)) <> DEPARTMENT_TOTAL ->
   truthy date = true).
Proof.
  intros h hrow r date owner Hf Hi.
  split; [now apply build_db_result_rows|].
  apply range_In in Hi.
  destruct (header_timeCols rt data Hf) as (tc0 & rest & Ht & Hcols & Hrest).
  fold h in Ht, Hcols. fold hrow in Hcols.
  assert (Hrec : records_of_row rt data h i =
                 if truthy owner && truthy date
                 then flat_map (emit rt data h r owner date []) (timeCols h)
                 else []).
  { unfold records_of_row, row_records. cbv zeta. fold r date.
    change (owner_of rt h r (manager_cell h r) date) with owner.
    destruct (truthy owner && truthy date); [|reflexivity].
    now rewrite fold_emit. }
  split; [|split; [|split]].
  - intros [Ho | Hd]; rewrite Hrec; [now rewrite Ho|].
    now rewrite Hd, andb_false_r.
  - intros Ho Hd. exists tc0, rest. split; [exact Ht|].
    rewrite Hrec, Ho, Hd. simpl.
    apply flat_map_department with (rest := rest); try assumption.
    apply (Hcols tc0). rewrite Ht. now left.
  - intros Ho Hne Hd. rewrite Hrec, Ho, Hd. simpl.
    apply flat_map_manager; [|exact Hcols].
    destruct (eq_str owner DEPARTMENT_TOTAL) eqn:E; [|reflexivity].
    apply eq_str_true in E. contradiction.
  - intros Ho Hcell. unfold owner, owner_at, owner_of in Ho. cbv zeta in Ho.
    fold r date in Ho.
    destruct (is_valid_date_cell rt (manager_cell h r)) eqn:Edate.
    + apply date_row_gives_date; [lia | exact Edate].
    + cbn [andb negb] in Ho.
      destruct (nonempty (strip (py_str rt (manager_cell h r)))); cbn [andb negb] in Ho.
      * destruct (is_technical_word rt (manager_cell h r)); cbn [negb] in Ho;
          [discriminate Ho|].
        injection Ho as Ho. contradiction.
      * destruct (truthy date); [reflexivity|]. discriminate Ho.
Qed.

(** The accessor gives a number exactly when the column is absent or out
    of range, or the cell is blank or a number. *)
Lemma get_val_number (r : row) (idx : Z) :
  is_number (get_val r idx) = true <->
  idx <= -1 \/ len r <= idx \/
  is_blank (getitem VNone r idx) = true \/
  is_number (getitem VNone r idx) = true.
Proof.
  destruct (get_val_cases r idx) as (Hout & Hblank & Hcell).
  destruct (Z.leb_spec idx (-1)) as [Hn | Hn];
    [rewrite Hout by lia; split; [intros _; now left | reflexivity]|].
  destruct (Z.leb_spec (len r) idx) as [Hl | Hl];
    [rewrite Hout by lia; split; [intros _; right; now left | reflexivity]|].
  destruct (is_blank (getitem VNone r idx)) eqn:E.
  - rewrite Hblank by (lia || reflexivity).
    split; [intros _; right; right; now left | reflexivity].
  - rewrite Hcell by (lia || reflexivity). split.
    + intros H. now repeat right.
    + intros [H | [H | [H | H]]]; (lia || discriminate H || exact H).
Qed.

(** Every record the loop body appends for a time column: the fields
    from the fourth on are the accessor at the time column and at the four
    aggregate columns. *)
Lemma emit_fields (data : grid) (h : Info) (r : row) (o cd : value) (tc : Z)
    (rec : record) :
  0 <= tc ->
  In rec (emit rt data h r o cd [] tc) ->
  exists interval,
    rec = [cd; o; interval; get_val r tc; get_val r (totalCol h);
           get_val r (warmCol h); get_val r (warmOffCol h);
           get_val r (convCol h)].
Proof.
  intros Htc. unfold emit. cbv zeta. rewrite offers_get_val by exact Htc.
  destruct (eq_str o DEPARTMENT_TOTAL);
    [destruct (tc =? getitem 0 (timeCols h) 0)|]; simpl;
    intros Hin; try contradiction; destruct Hin as [<- | []];
    eexists; reflexivity.
Qed.

Lemma row_records_fields (data : grid) (h : Info) (cd : value) (i : Z)
    (rec : record) :
  (forall tc, In tc (timeCols h) -> 0 <= tc) ->
  In rec (row_records rt data h cd i) ->
  exists tc owner interval,
    In tc (timeCols h) /\
    let r := getitem [] data i in
    rec = [cd; owner; interval; get_val r tc; get_val r (totalCol h);
           get_val r (warmCol h); get_val r (warmOffCol h);
           get_val r (convCol h)].
Proof.
  intros Hcols. unfold row_records. cbv zeta.
  set (r := getitem [] data i).
  set (o := owner_of rt h r (manager_cell h r) cd).
  destruct (truthy o && truthy cd); [|contradiction].
  rewrite fold_emit. simpl. intros Hin. apply in_flat_map in Hin.
  destruct Hin as (tc & Htc & Hin).
  destruct (emit_fields data h r o cd tc rec (Hcols tc Htc) Hin)
    as (interval & ->).
  exists tc, o, interval. split; [exact Htc | reflexivity].
Qed.

(** C5, amended.  The accessor of the aggregate columns returns 0 for a
    column that is absent or out of range and for a cell that is the empty
    string or None, and the cell itself, unconverted, otherwise; so its
    value is a number exactly when the column is absent or out of range or
    the cell is blank or a number.  In every data record the Offers field is
    the accessor's value at one of the time columns of the record's source
    row, and the Total_Day_Offers, Warm_Leads_Given, Offers_From_Warm and
    Conversion_Rate fields are its values at the total, warm, warm-off and
    conversion columns of that row: each field is a number exactly when its
    own source cell is a number, blank or missing, whatever the other cells
    of the row hold, and is that cell's text otherwise. *)
Theorem value_fields_pass_through (data : grid) :
  let h := find_header_row_and_cols rt data in
  found h = true ->
  (forall r idx,
     (idx <= -1 \/ len r <= idx -> get_val r idx = VInt 0) /\
     (0 <= idx < len r -> is_blank (getitem VNone r idx) = true ->
      get_val r idx = VInt 0) /\
     (0 <= idx < len r -> is_blank (getitem VNone r idx) = false ->
      get_val r idx = getitem VNone r idx)) /\
  (forall r idx,
     is_number (get_val r idx) = true <->
     idx <= -1 \/ len r <= idx \/
     is_blank (getitem VNone r idx) = true \/
     is_number (getitem VNone r idx) = true) /\
  exists t,
    build_db_result rt data = (Some (columns :: t), None) /\
    forall rec, In rec t ->
      exists i tc date owner interval,
        In i (data_rows data h) /\ In tc (timeCols h) /\
        let r := getitem [] data i in
        rec = [date; owner; interval; get_val r tc;
               get_val r (totalCol h); get_val r (warmCol h);
               get_val r (warmOffCol h); get_val r (convCol h)].
Proof.
  intros h Hf. split; [exact get_val_cases|]. split; [exact get_val_number|].
  exists (flat_map (records_of_row rt data h) (data_rows data h)).
  split; [now apply build_db_result_rows|].
  destruct (header_timeCols rt data Hf) as (_ & _ & _ & Hcols & _).
  fold h in Hcols.
  intros rec Hrec. apply in_flat_map in Hrec. destruct Hrec as (i & Hi & Hrec).
  apply row_records_fields in Hrec;
    [|intros tc Htc; now destruct (Hcols tc Htc)].
  destruct Hrec as (tc & owner & interval & Htc & Hrec).
  exists i, tc, (date_at rt data h i), owner, interval.
  split; [exact Hi|]. split; [exact Htc | exact Hrec].
Qed.

Lemma letter_cell_no_owner (h : Info) (r : row) (cell cd : value) :
  In cell [text "S"; text "s"; text "M"; text "m"] ->
  is_technical_word rt cell = true /\ owner_of rt h r cell cd = VNone.
Proof.
  intros Hin.
  assert (H : is_valid_date_cell rt cell = false /\
              nonempty (strip (py_str rt cell)) = true /\
              is_technical_word rt cell = true).
  { destruct Hin as [<- | [<- | [<- | [<- | []]]]]; repeat split. }
  destruct H as (Hd & Hn & Ht). split; [exact Ht|].
  unfold owner_of. cbv zeta. now rewrite Hd, Hn, Ht.
Qed.

(** C10.  [is_technical_word] holds of a value exactly when its
    stringified, lowercased, trimmed form is empty, "s", "m" or one of the
    six Russian label words; and in the table of a grid with a detected
    header a data row whose manager-column cell is "S", "s", "M" or "m" adds
    no record, so it is never emitted as a manager. *)
Theorem single_letter_rows_skipped (data : grid) (i : Z) :
  let h := find_header_row_and_cols rt data in
  let cell := manager_cell h (getitem [] data i) in
  found h = true ->
  In i (data_rows data h) ->
  In cell [text "S"; text "s"; text "M"; text "m"] ->
  (forall val,
     let v := strip (lower rt (py_str rt val)) in
     is_technical_word rt val = true <->
     v = [] \/ v = lit "s" \/ v = lit "m" \/
     In v [lit "итого"; lit "сотрудники"; lit "дата"; lit "менеджер";
           lit "ф.и.о"; lit "оферты"]) /\
  is_technical_word rt cell = true /\
  build_db_result rt data =
    (Some (columns :: flat_map (records_of_row rt data h) (data_rows data h)),
     None) /\
  records_of_row rt data h i = [].
Proof.
  intros h cell Hf Hi Hcell. split; [|split; [|split]].
  - intros val v. unfold is_technical_word. fold v.
    rewrite orb_true_iff, existsb_exists, str_eqb_eq. split.
    + intros [(x & Hin & Hx) | Hv]; [|now left].
      apply str_eqb_eq in Hx. subst x. unfold forbidden in Hin.
      cbn [In] in Hin |- *. intuition congruence.
    + intros [Hv | Hv]; [now right|]. left. exists v.
      split; [|now apply str_eqb_eq]. unfold forbidden.
      cbn [In] in Hv |- *. intuition congruence.
  - now destruct (letter_cell_no_owner h (getitem [] data i) cell
                    (date_at rt data h i) Hcell).
  - now apply build_db_result_rows.
  - unfold records_of_row, row_records. cbv zeta. fold cell.
    destruct (letter_cell_no_owner h (getitem [] data i) cell
                (date_at rt data h i) Hcell) as [_ ->].
    reflexivity.
Qed.

(** A grid with one data row whose manager-column cell is empty has no
    data record, whatever its header row and its other cells hold: no date
    is in force at that row. *)
Lemma single_row_without_manager_cell (data : grid) :
  let h := find_header_row_and_cols rt data in
  found h = true ->
  len data = rowIdx h + 2 ->
  manager_cell h (getitem [] data (rowIdx h + 1)) = VStr [] ->
  build_db_result rt data = (Some [columns], None).
Proof.
  intros h Hf Hlen Hcell. rewrite build_db_result_rows by exact Hf. fold h.
  unfold data_rows. rewrite Hlen.
  replace (rowIdx h + 2) with (rowIdx h + 1 + Z.of_nat 1) by lia.
  rewrite range_snoc. simpl Z.of_nat. rewrite Z.add_0_r.
  unfold range at 1. rewrite Z.sub_diag. cbn [Z.to_nat seq map app flat_map].
  rewrite app_nil_r.
  assert (Hnone : date_at rt data h (rowIdx h + 1) = VNone).
  { destruct (date_at_spec rt data h (rowIdx h + 1))
      as [[_ Hd] | (j & Hj & Hdate & _)]; [lia | exact Hd |].
    replace j with (rowIdx h + 1) in Hdate by lia.
    unfold is_date_row in Hdate. rewrite Hcell in Hdate. discriminate Hdate. }
  unfold records_of_row, row_records. cbv zeta. rewrite Hnone.
  cbn [truthy]. now rewrite andb_false_r.
Qed.

(** C3, amended.  The grid with the header row
    ["", "", "10:00-11:00", "Итого оферт"] at index 0 (one time column, at
    index 2; manager column 1; total column 3) and the data row
    ["", "05.01.2024", 3, 5], the date standing in the manager column,
    gives exactly one data record,
    ["05.01.2024", "DEPARTMENT_TOTAL", "ALL_DAY", 3, 5, 0, 0, 0].  With the
    data row ["05.01.2024", "", 3, 5], the date in column 0, the manager
    cell is empty, no date is in force and the table has no data record. *)
Theorem example_department_row :
  find_header_row_and_cols rt date_in_manager_grid =
    {| found := true; rowIdx := 0; managerCol := 1; timeCols := [2];
       totalCol := 3; warmCol := -1; warmOffCol := -1; convCol := -1 |} /\
  build_db_result rt date_in_manager_grid =
    (Some [columns; expected_record], None) /\
  find_header_row_and_cols rt date_left_grid =
    find_header_row_and_cols rt date_in_manager_grid /\
  build_db_result rt date_left_grid = (Some [columns], None).
Proof. repeat split; vm_compute; reflexivity. Qed.

(** C6.  [safe_num] returns a number for every input: 0 for the empty
    string and for None, a number unchanged, and for any other text the
    float parsed from it after the commas are replaced by dots, or 0 when
    the text is no numeral.  safe_num("12,5") is 12.5 (the binary64 number
    7036874417766400 * 2^-49), safe_num("") = 0, safe_num("abc") = 0,
    safe_num(7) = 7. *)
Theorem safe_num_total :
  (forall x, is_number (safe_num rt x) = true) /\
  safe_num rt (VStr []) = VInt 0 /\
  safe_num rt VNone = VInt 0 /\
  (forall b, safe_num rt (VBool b) = VBool b) /\
  (forall z, safe_num rt (VInt z) = VInt z) /\
  (forall f, safe_num rt (VFloat f) = VFloat f) /\
  (forall c s,
     safe_num rt (VStr (c :: s)) =
     match py_float rt (replace (chr ",") (chr ".") (c :: s)) with
     | Some f => VFloat f
     | None => VInt 0
     end) /\
  safe_num rt (text "12,5") = VFloat (S754_finite false 7036874417766400 (-49)) /\
  2 * 7036874417766400 = 25 * 2 ^ 49 /\
  safe_num rt (text "") = VInt 0 /\
  safe_num rt (text "abc") = VInt 0 /\
  safe_num rt (VInt 7) = VInt 7.
Proof.
  split.
  { intros x. unfold safe_num.
    destruct x as [| b | z | f | s]; try reflexivity.
    destruct s as [|c s]; [reflexivity|]. simpl.
    now destruct (py_float rt _). }
  repeat split; try reflexivity; vm_compute; reflexivity.
Qed.

(** C7.  [is_valid_date_cell] holds of a value exactly when it is text
    whose stripped form is two digits, a dot, two digits, a dot and four
    digits; it rejects every value that is not text; it accepts
    "05.01.2024" and rejects "2024-01-05", "5.1.2024" and "05.01.24". *)
Theorem is_valid_date_cell_iff :
  (forall v,
     is_valid_date_cell rt v = true <->
     exists s d1 d2 d3 d4 d5 d6 d7 d8,
       v = VStr s /\
       strip s = [d1; d2; chr "."; d3; d4; chr "."; d5; d6; d7; d8] /\
       Forall (fun d => isdecimal rt d = true)
         [d1; d2; d3; d4; d5; d6; d7; d8]) /\
  (forall v, is_str v = false -> is_valid_date_cell rt v = false) /\
  is_valid_date_cell rt (text "05.01.2024") = true /\
  is_valid_date_cell rt (text "2024-01-05") = false /\
  is_valid_date_cell rt (text "5.1.2024") = false /\
  is_valid_date_cell rt (text "05.01.24") = false.
Proof.
  split; [exact (is_valid_date_cell_spec rt)|]. split.
  - intros v Hv. destruct v; try reflexivity. discriminate Hv.
  - repeat split; vm_compute; reflexivity.
Qed.

End TableClaims.

(** ** The sync decision *)

Section OrchestratorClaims.

Variable TARGET_SPREADSHEET_ID : str.

(** C9.  [should_sync_sheet] is true when the target has no sheet named
    DB_{name}; otherwise true when the current month's name occurs in
    [name]; otherwise true when column A of DB_{name} has at most one row;
    and false in the remaining case. *)
Theorem should_sync_sheet_cases (service : Service)
    (name current_month : str) :
  let db_name := lit "DB_" ++ name in
  let has_db :=
    exists s, In s (get_spreadsheet_metadata service TARGET_SPREADSHEET_ID) /\
              title s = db_name in
  let rows :=
    len (read_values service TARGET_SPREADSHEET_ID (db_name ++ lit "!A:A")) in
  let sync := should_sync_sheet TARGET_SPREADSHEET_ID service name
                current_month in
  (~ has_db -> sync = true) /\
  (has_db -> substring current_month name -> sync = true) /\
  (has_db -> ~ substring current_month name -> rows <= 1 -> sync = true) /\
  (has_db -> ~ substring current_month name -> 1 < rows -> sync = false).
Proof.
  intros db_name has_db rows sync.
  assert (Hex : existsb (fun s => str_eqb (title s) db_name)
                  (get_spreadsheet_metadata service TARGET_SPREADSHEET_ID)
                = true <-> has_db).
  { rewrite existsb_exists. unfold has_db.
    split; intros (s & Hin & Hs); exists s; split; try assumption;
      now apply str_eqb_eq. }
  assert (Hsub : contains current_month name = true <->
                 substring current_month name) by apply contains_spec.
  unfold sync, should_sync_sheet, sheet_last_row_estimate. cbv zeta.
  fold db_name. fold rows.
  destruct (existsb _ _) eqn:E; cbn [negb].
  - assert (Hd : has_db) by now apply Hex.
    destruct (contains current_month name) eqn:C.
    + assert (Hs : substring current_month name) by now apply Hsub.
      split; [intros Hn; contradiction|]. split; [reflexivity|].
      split; intros _ Hns; contradiction.
    + assert (Hs : ~ substring current_month name)
        by (intros X; apply Hsub in X; discriminate X).
      split; [intros Hn; contradiction|].
      split; [intros _ X; contradiction|].
      split; intros _ _ Hr; [now apply Z.leb_le | now apply Z.leb_gt].
  - assert (Hno : ~ has_db) by (intros Hd; apply Hex in Hd; discriminate Hd).
    split; [reflexivity|]. split; [intros X; contradiction|].
    split; intros X; contradiction.
Qed.

End OrchestratorClaims.

(** ** The sample grids, for every runtime *)

Lemma undated_grid_table (rt : Runtime) :
  build_db_result rt undated_grid = (Some [columns], None).
Proof. vm_compute. reflexivity. Qed.

Lemma text_cells_grid_table (rt : Runtime) :
  build_db_result rt text_cells_grid =
  (Some [columns; text_cells_record], None).
Proof. vm_compute. reflexivity. Qed.

Lemma date_left_grid_table (rt : Runtime) :
  build_db_result rt date_left_grid = (Some [columns], None).
Proof. vm_compute. reflexivity. Qed.

(** ** Counterexamples to the claims as stated *)

(** C1 as stated fails: in [undated_grid] the header has one time column
    and the row below it is a manager row (owner "Ivan"), yet the row adds
    no record, because no date is in force. *)
Lemma undated_manager_row_adds_nothing :
  found undated_info = true /\
  timeCols undated_info = [1] /\
  owner_at plain_runtime undated_grid undated_info 1 = text "Ivan" /\
  records_of_row plain_runtime undated_grid undated_info 1 = [] /\
  build_db_result plain_runtime undated_grid = (Some [columns], None).
Proof.
  split; [reflexivity|]. split; [reflexivity|]. split; [reflexivity|].
  split; [reflexivity|]. apply undated_grid_table.
Qed.

(** C3 as stated fails: with the date in column 0 and the manager column
    (index 1) empty, the grid of the example gives no data record. *)
Lemma example_row_as_given_adds_nothing :
  managerCol (find_header_row_and_cols plain_runtime date_left_grid) = 1 /\
  timeCols (find_header_row_and_cols plain_runtime date_left_grid) = [2] /\
  totalCol (find_header_row_and_cols plain_runtime date_left_grid) = 3 /\
  build_db_result plain_runtime date_left_grid = (Some [columns], None) /\
  build_db_result plain_runtime date_left_grid <>
    (Some [columns; expected_record], None).
Proof.
  split; [reflexivity|]. split; [reflexivity|]. split; [reflexivity|].
  rewrite date_left_grid_table. split; [reflexivity | discriminate].
Qed.

(** C5 as stated fails: the Offers and Total_Day_Offers fields of the
    record of [text_cells_grid] are the texts "n/a" and "abc". *)
Lemma text_cells_reach_the_table :
  build_db_result plain_runtime text_cells_grid =
    (Some [columns; text_cells_record], None) /\
  nth 3 text_cells_record VNone = text "n/a" /\
  nth 4 text_cells_record VNone = text "abc" /\
  is_number (text "n/a") = false /\
  is_number (text "abc") = false.
Proof.
  split; [apply text_cells_grid_table|]. repeat split.
Qed.

(** ** The theorems at the sample grids *)

Lemma two_slot_found : found two_slot_info = true.
Proof. reflexivity. Qed.

Lemma two_slot_rows (i : Z) :
  2 <= i < 6 -> In i (data_rows two_slot_grid two_slot_info).
Proof.
  intros H. apply range_In.
  change (rowIdx two_slot_info + 1) with 2.
  change (len two_slot_grid) with 6. exact H.
Qed.

(** C1 at the manager row "Ivan" of [two_slot_grid]: one record for each
    of the two time columns. *)
Lemma records_of_owned_rows_witness :
  found two_slot_info = true /\
  In 3 (data_rows two_slot_grid two_slot_info) /\
  records_of_row plain_runtime two_slot_grid two_slot_info 3 =
  [[text "05.01.2024"; text "Ivan"; text "10:00-11:00"; VInt 1;
    VInt 0; VInt 0; VInt 0; VInt 0];
   [text "05.01.2024"; text "Ivan"; text "11:00-12:00"; VInt 2;
    VInt 0; VInt 0; VInt 0; VInt 0]].
Proof.
  assert (Hi : In 3 (data_rows two_slot_grid two_slot_info))
    by (apply two_slot_rows; lia).
  split; [exact two_slot_found|]. split; [exact Hi|].
  destruct (records_of_owned_rows plain_runtime two_slot_grid 3
              two_slot_found Hi) as (_ & _ & _ & Hmanager & _).
  etransitivity; [apply Hmanager | reflexivity];
    [reflexivity | discriminate | reflexivity].
Defined.

(** C2 at the same row: the date of its records is the cell of row 2. *)
Lemma record_date_is_latest_date_witness :
  found two_slot_info = true /\
  forall rec,
    In rec (records_of_row plain_runtime two_slot_grid two_slot_info 3) ->
    exists j, 1 < j <= 3 /\
      is_valid_date_cell plain_runtime
        (manager_cell two_slot_info (getitem [] two_slot_grid j)) = true /\
      date_field rec =
        manager_cell two_slot_info (getitem [] two_slot_grid j) /\
      forall k, j < k <= 3 ->
        is_valid_date_cell plain_runtime
          (manager_cell two_slot_info (getitem [] two_slot_grid k)) = false.
Proof.
  split; [exact two_slot_found|].
  destruct (record_date_is_latest_date plain_runtime two_slot_grid
              two_slot_found) as (_ & Hrows).
  assert (Hi : In 3 (data_rows two_slot_grid two_slot_info))
    by (apply two_slot_rows; lia).
  destruct (Hrows 3 Hi) as (Hdate & _).
  exact Hdate.
Defined.

(** C4 at [two_slot_grid]: the header is row 1, and a grid with the same
    rows 0 and 1 has the same header row. *)
Lemma find_header_first_qualifying_row_witness :
  found two_slot_info = true /\
  firstn 2 two_slot_variant = firstn 2 two_slot_grid /\
  rowIdx (find_header_row_and_cols plain_runtime two_slot_variant) =
  rowIdx two_slot_info.
Proof.
  split; [exact two_slot_found|]. split; [reflexivity|].
  destruct (find_header_first_qualifying_row plain_runtime two_slot_grid)
    as (_ & Hfound & _).
  destruct (Hfound two_slot_found) as (_ & _ & _ & Hsame).
  destruct (Hsame two_slot_variant eq_refl) as (_ & Hrow).
  exact Hrow.
Defined.

(** C5 at [two_slot_grid]: every record's value fields are the accessor
    at a time column and at the aggregate columns of its source row. *)
Lemma value_fields_pass_through_witness :
  found (find_header_row_and_cols plain_runtime two_slot_grid) = true /\
  exists t,
    build_db_result plain_runtime two_slot_grid =
      (Some (columns :: t), None) /\
    forall rec, In rec t ->
      exists i tc date owner interval,
        In i (data_rows two_slot_grid
                (find_header_row_and_cols plain_runtime two_slot_grid)) /\
        In tc (timeCols
                 (find_header_row_and_cols plain_runtime two_slot_grid)) /\
        rec = [date; owner; interval;
               get_val (getitem [] two_slot_grid i) tc;
               get_val (getitem [] two_slot_grid i)
                 (totalCol
                    (find_header_row_and_cols plain_runtime two_slot_grid));
               get_val (getitem [] two_slot_grid i)
                 (warmCol
                    (find_header_row_and_cols plain_runtime two_slot_grid));
               get_val (getitem [] two_slot_grid i)
                 (warmOffCol
                    (find_header_row_and_cols plain_runtime two_slot_grid));
               get_val (getitem [] two_slot_grid i)
                 (convCol
                    (find_header_row_and_cols plain_runtime two_slot_grid))].
Proof.
  assert (Hf : found (find_header_row_and_cols plain_runtime two_slot_grid)
               = true) by (vm_compute; reflexivity).
  split; [exact Hf|].
  exact (proj2 (proj2 (value_fields_pass_through plain_runtime two_slot_grid
                         Hf))).
Defined.

(** C8 at [two_slot_grid]: the first time column is 1, the manager
    column 0. *)
Lemma header_info_invariant_witness :
  found two_slot_info = true /\
  exists c rest,
    timeCols two_slot_info = c :: rest /\
    0 <= c < len (getitem [] two_slot_grid (rowIdx two_slot_info)) /\
    time_header plain_runtime
      (getitem VNone (getitem [] two_slot_grid (rowIdx two_slot_info)) c) /\
    (forall c', 0 <= c' < c ->
       ~ time_header plain_runtime
           (getitem VNone (getitem [] two_slot_grid (rowIdx two_slot_info))
              c')) /\
    managerCol two_slot_info = Z.max 0 (c - 1).
Proof.
  split; [exact two_slot_found|].
  destruct (header_info_invariant plain_runtime two_slot_grid) as (_ & Hfound).
  exact (Hfound two_slot_found).
Defined.

(** C9 at [sample_service]: DB_March exists and has three rows; the sheet
    March is synced in March and skipped in April. *)
Lemma should_sync_sheet_cases_witness :
  should_sync_sheet (lit "target") sample_service (lit "March")
    (current_month_name 3) = true /\
  should_sync_sheet (lit "target") sample_service (lit "March")
    (current_month_name 4) = false.
Proof.
  assert (Hdb : exists s,
            In s (get_spreadsheet_metadata sample_service (lit "target")) /\
            title s = lit "DB_" ++ lit "March").
  { exists {| title := lit "DB_March"; sheetId := 7 |}.
    split; [right; now left | reflexivity]. }
  destruct (should_sync_sheet_cases (lit "target") sample_service (lit "March")
              (current_month_name 3)) as (_ & Hmonth & _).
  destruct (should_sync_sheet_cases (lit "target") sample_service (lit "March")
              (current_month_name 4)) as (_ & _ & _ & Hskip).
  split.
  - apply Hmonth; [exact Hdb|]. now exists [], [].
  - apply Hskip; [exact Hdb | | reflexivity].
    intros Hsub. apply contains_spec in Hsub. discriminate Hsub.
Defined.

(** C10 at the rows "S" and "m" of [two_slot_grid]. *)
Lemma single_letter_rows_skipped_witness :
  found two_slot_info = true /\
  In 4 (data_rows two_slot_grid two_slot_info) /\
  In (manager_cell two_slot_info (getitem [] two_slot_grid 4))
    [text "S"; text "s"; text "M"; text "m"] /\
  records_of_row plain_runtime two_slot_grid two_slot_info 4 = [].
Proof.
  assert (Hi : In 4 (data_rows two_slot_grid two_slot_info))
    by (apply two_slot_rows; lia).
  assert (Hc : In (manager_cell two_slot_info (getitem [] two_slot_grid 4))
                 [text "S"; text "s"; text "M"; text "m"]) by now left.
  split; [exact two_slot_found|]. split; [exact Hi|]. split; [exact Hc|].
  destruct (single_letter_rows_skipped plain_runtime two_slot_grid 4
              two_slot_found Hi Hc) as (_ & _ & _ & Hnone).
  exact Hnone.
Defined.

(** ** Column letters *)

Lemma div_eucl_26 (a : Z) :
  Z.div_eucl a 26 = (a / 26, a mod 26).
Proof. unfold Z.div, Z.modulo. now destruct (Z.div_eucl a 26). Qed.

Lemma col_to_a1_loop_step (fuel : nat) (n : Z) (s : str) :
  n <> 0 ->
  col_to_a1_loop (S fuel) n s =
  col_to_a1_loop fuel ((n - 1) / 26) (Z.to_N (65 + (n - 1) mod 26) :: s).
Proof.
  intros Hn. cbn [col_to_a1_loop].
  destruct (Z.eqb_spec n 0) as [E | _]; [contradiction|].
  now rewrite div_eucl_26.
Qed.

(** With enough rounds the loop ends, for a column that is not negative. *)
Lemma col_to_a1_loop_ends (fuel : nat) (n : Z) (s : str) :
  0 <= n -> (Z.to_nat n < fuel)%nat ->
  exists t, col_to_a1_loop fuel n s = Some t.
Proof.
  revert n s. induction fuel as [|fuel IH]; intros n s Hn Hfuel; [lia|].
  destruct (Z.eq_dec n 0) as [-> | Hne]; [now exists s|].
  rewrite col_to_a1_loop_step by exact Hne.
  assert (Hq : 0 <= (n - 1) / 26 < n).
  { split; [apply Z.div_pos; lia|].
    apply Z.le_lt_trans with (n - 1); [|lia].
    apply Z.div_le_upper_bound; lia. }
  apply IH; lia.
Qed.

(** More rounds than needed change nothing. *)
Lemma col_to_a1_loop_more (fuel fuel' : nat) (n : Z) (s t : str) :
  (fuel <= fuel')%nat ->
  col_to_a1_loop fuel n s = Some t -> col_to_a1_loop fuel' n s = Some t.
Proof.
  revert fuel' n s. induction fuel as [|fuel IH]; intros fuel' n s Hle;
    [discriminate|].
  destruct fuel' as [|fuel']; [lia|].
  destruct (Z.eq_dec n 0) as [-> | Hne]; [exact (fun H => H)|].
  rewrite !col_to_a1_loop_step by exact Hne. apply IH. lia.
Qed.

(** What the loop returns: letters put before [s], whose value continues
    the value of [n]. *)
Lemma col_to_a1_loop_value (fuel : nat) (n : Z) (s t : str) :
  0 <= n ->
  col_to_a1_loop fuel n s = Some t ->
  exists p, t = p ++ s /\ forallb is_capital p = true /\
    forall acc,
      fold_left (fun a c => 26 * a + (Z.of_N c - 64)) p acc =
      acc * 26 ^ len p + n.
Proof.
  revert n s t. induction fuel as [|fuel IH]; intros n s t Hn; [discriminate|].
  destruct (Z.eq_dec n 0) as [-> | Hne].
  - cbn. intros H. injection H as <-. exists []. repeat split.
    intros acc. cbn. lia.
  - rewrite col_to_a1_loop_step by exact Hne.
    set (q := (n - 1) / 26). set (r := (n - 1) mod 26).
    assert (Hr : 0 <= r < 26) by (apply Z.mod_pos_bound; lia).
    assert (Hq : 0 <= q) by (apply Z.div_pos; lia).
    assert (Hn1 : n = 26 * q + r + 1)
      by (pose proof (Z.div_mod (n - 1) 26); unfold q, r; lia).
    intros H. destruct (IH q _ t Hq H) as (p & -> & Hcap & Hval).
    exists (p ++ [Z.to_N (65 + r)]). split; [now rewrite <- app_assoc|].
    split.
    + rewrite forallb_app, Hcap. cbn [forallb andb]. unfold is_capital.
      rewrite andb_true_r, andb_true_iff, !N.leb_le. lia.
    + intros acc. rewrite fold_left_app, Hval. cbn [fold_left].
      unfold len. rewrite length_app. cbn [List.length].
      rewrite Nat2Z.inj_add, Z.pow_add_r by lia.
      rewrite Z2N.id by lia. change (Z.of_nat 1) with 1. lia.
Qed.

Lemma col_to_a1_value (n : Z) (t : str) :
  0 <= n -> col_to_a1 n = Some t ->
  a1_value t = n /\ forallb is_capital t = true.
Proof.
  intros Hn Ht. unfold col_to_a1 in Ht.
  destruct (col_to_a1_loop_value _ _ _ _ Hn Ht) as (p & -> & Hcap & Hval).
  rewrite app_nil_r. split; [|exact Hcap].
  unfold a1_value. rewrite Hval. lia.
Qed.

(** X1.  For a column number that is not negative [col_to_a1] returns,
    after at most [n] rounds of its loop, capital letters whose value in
    the bijective base 26 (A = 1 .. Z = 26, AA = 27) is [n]; more rounds
    change nothing, and different numbers get different letters. *)
Theorem col_to_a1_round_trip (n : Z) :
  0 <= n ->
  exists t,
    col_to_a1 n = Some t /\
    a1_value t = n /\
    forallb is_capital t = true /\
    (forall fuel, (Z.to_nat n < fuel)%nat ->
       col_to_a1_loop fuel n [] = Some t) /\
    (forall m, 0 <= m -> col_to_a1 m = Some t -> m = n).
Proof.
  intros Hn.
  destruct (col_to_a1_loop_ends (S (Z.to_nat n)) n [] Hn) as [t Ht]; [lia|].
  exists t. fold (col_to_a1 n) in Ht.
  destruct (col_to_a1_value _ _ Hn Ht) as [Hv Hc].
  split; [exact Ht|]. split; [exact Hv|]. split; [exact Hc|]. split.
  - intros fuel Hfuel.
    apply col_to_a1_loop_more with (fuel := S (Z.to_nat n)); [lia|exact Ht].
  - intros m Hm Hmt. destruct (col_to_a1_value _ _ Hm Hmt) as [Hv' _]. congruence.
Qed.

(** X2.  For a negative column number the loop of [col_to_a1] never ends:
    no number of rounds gives a result. *)
Theorem col_to_a1_negative (fuel : nat) (n : Z) (s : str) :
  n < 0 -> col_to_a1_loop fuel n s = None.
Proof.
  revert n s. induction fuel as [|fuel IH]; intros n s Hn; [reflexivity|].
  rewrite col_to_a1_loop_step by lia. apply IH.
  apply Z.div_lt_upper_bound; lia.
Qed.

(** ** Stripped text *)

Lemma lstrip_snoc (l : str) (c : N) :
  isspace c = false -> lstrip (l ++ [c]) = lstrip l ++ [c].
Proof.
  intros Hc. induction l as [|x l IH]; simpl.
  - now rewrite Hc.
  - destruct (isspace x); [exact IH | reflexivity].
Qed.

Lemma lstrip_idem (s : str) : lstrip (lstrip s) = lstrip s.
Proof.
  destruct (lstrip s) as [|c r] eqn:E; [reflexivity|].
  simpl. now rewrite (lstrip_head _ _ _ E).
Qed.

(** A stripped string does not start with white space. *)
Lemma strip_first (s : str) (c : N) (r : str) :
  strip s = c :: r -> isspace c = false.
Proof.
  unfold strip, rstrip. destruct (lstrip s) as [|a m] eqn:E; [discriminate|].
  pose proof (lstrip_head _ _ _ E) as Ha.
  cbn [rev]. rewrite lstrip_snoc by exact Ha. rewrite rev_app_distr.
  cbn [rev app]. intros H. injection H as <- _. exact Ha.
Qed.

(** Stripping twice is stripping once. *)
Lemma strip_idem (s : str) : strip (strip s) = strip s.
Proof.
  assert (Hl : lstrip (strip s) = strip s).
  { destruct (strip s) as [|c r] eqn:E; [reflexivity|].
    simpl. now rewrite (strip_first _ _ _ E). }
  unfold strip at 1. rewrite Hl. unfold rstrip, strip, rstrip.
  now rewrite rev_involutive, lstrip_idem.
Qed.

(** ** The names of the settings sheet *)

Section SettingsFacts.

Variable rt : Runtime.
Variable TARGET_SPREADSHEET_ID SETTINGS_SHEET_NAME : str.

Lemma settings_fold (values : grid) (names : list str) :
  fold_left
    (fun names r =>
       match r with
       | [] => names
       | cell :: _ =>
         let name := strip (py_str rt cell) in
         if nonempty name then names ++ [name] else names
       end)
    values names =
  names ++ flat_map (name_of_row rt) values.
Proof.
  revert names. induction values as [|r values IH]; intros names; simpl.
  - now rewrite app_nil_r.
  - rewrite IH. destruct r as [|cell rest]; [reflexivity|]. cbn [name_of_row].
    destruct (nonempty (strip (py_str rt cell))); [|reflexivity].
    now rewrite <- app_assoc.
Qed.

(** X3.  The names [get_settings_sheet_names] returns are the stripped
    first cells of the rows of column A, from row 2 on, in their order, the
    empty rows and the rows whose first cell strips to nothing left out;
    so every name is non-empty and has no white space at either end. *)
Theorem settings_names_are_clean (service : Service) :
  let values := read_values service TARGET_SPREADSHEET_ID
                  (SETTINGS_SHEET_NAME ++ lit "!A2:A") in
  let names := get_settings_sheet_names rt TARGET_SPREADSHEET_ID
                 SETTINGS_SHEET_NAME service in
  names = flat_map (name_of_row rt) values /\
  (forall name, In name names <->
     name <> [] /\
     exists cell rest, In (cell :: rest) values /\
       name = strip (py_str rt cell)) /\
  (forall name, In name names ->
     strip name = name /\
     (forall c r, name = c :: r -> isspace c = false) /\
     (forall r c, name = r ++ [c] -> isspace c = false)).
Proof.
  intros values names.
  assert (E : names = flat_map (name_of_row rt) values)
    by (unfold names, get_settings_sheet_names; cbv zeta; fold values;
        now rewrite settings_fold).
  assert (Hin : forall name, In name names <->
     name <> [] /\
     exists cell rest, In (cell :: rest) values /\
       name = strip (py_str rt cell)).
  { intros name. rewrite E, in_flat_map. split.
    - intros (r & Hr & Hname). destruct r as [|cell rest]; [contradiction|].
      cbn [name_of_row] in Hname.
      destruct (strip (py_str rt cell)) as [|c m] eqn:S; [contradiction|].
      destruct Hname as [<- | []]. split; [discriminate|].
      exists cell, rest. split; [exact Hr | now rewrite S].
    - intros (Hne & cell & rest & Hr & ->). exists (cell :: rest).
      split; [exact Hr|]. cbn [name_of_row].
      destruct (strip (py_str rt cell)); [contradiction | now left]. }
  split; [exact E|]. split; [exact Hin|].
  intros name Hname. apply Hin in Hname.
  destruct Hname as (_ & cell & rest & _ & ->). split; [apply strip_idem|].
  split.
  - intros c r Hc. exact (strip_first _ _ _ Hc).
  - intros r c Hc. exact (strip_last _ _ _ Hc).
Qed.

End SettingsFacts.

(** ** The shape of the table *)

Section TableShape.

Variable rt : Runtime.

Lemma passed_through_not_blank (r : row) (v : value) :
  passed_through r v -> is_blank v = false.
Proof. intros [-> | [_ H]]; [reflexivity | exact H]. Qed.

(** An owner is DEPARTMENT_TOTAL or stripped, non-empty text. *)
Lemma owner_of_text (h : Info) (r : row) (cell cd : value) :
  truthy (owner_of rt h r cell cd) = true ->
  exists s, owner_of rt h r cell cd = VStr s /\ s <> [] /\ strip s = s.
Proof.
  unfold owner_of. cbv zeta.
  assert (Hdept : exists s, VStr DEPARTMENT_TOTAL = VStr s /\ s <> [] /\
                            strip s = s).
  { exists DEPARTMENT_TOTAL. split; [reflexivity|].
    split; [discriminate | reflexivity]. }
  destruct (is_valid_date_cell rt cell && has_data rt r h); [intros _; exact Hdept|].
  destruct (negb (nonempty (strip (py_str rt cell))) && truthy cd
            && has_data rt r h); [intros _; exact Hdept|].
  destruct (nonempty (strip (py_str rt cell))) eqn:Hn; cbn [andb];
    [|discriminate].
  destruct (negb (is_valid_date_cell rt cell)
            && negb (is_technical_word rt cell)); [|discriminate].
  intros _. exists (strip (py_str rt cell)). split; [reflexivity|].
  split; [|apply strip_idem].
  intros E. rewrite E in Hn. discriminate Hn.
Qed.

Lemma emit_interval_text (data : grid) (h : Info) (r : row) (o cd : value)
    (tc : Z) (rec : record) :
  In rec (emit rt data h r o cd [] tc) ->
  exists s, nth 2 rec VNone = VStr s.
Proof.
  unfold emit. cbv zeta.
  destruct (eq_str o DEPARTMENT_TOTAL);
    [destruct (tc =? getitem 0 (timeCols h) 0)|]; simpl;
    intros Hin; try contradiction; destruct Hin as [<- | []];
    eexists; reflexivity.
Qed.

Lemma row_records_shape (data : grid) (h : Info) (cd : value) (i : Z)
    (rec : record) :
  In rec (row_records rt data h cd i) ->
  truthy cd = true /\
  exists owner interval offers total warm warm_off conv,
    rec = [cd; VStr owner; VStr interval; offers; total; warm; warm_off;
           conv] /\
    owner <> [] /\ strip owner = owner /\
    is_blank offers = false /\ is_blank total = false /\
    is_blank warm = false /\ is_blank warm_off = false /\
    is_blank conv = false.
Proof.
  unfold row_records. cbv zeta.
  set (r := getitem [] data i).
  set (o := owner_of rt h r (manager_cell h r) cd).
  destruct (truthy o && truthy cd) eqn:E; [|contradiction].
  apply andb_true_iff in E. destruct E as [Ho Hcd].
  rewrite fold_emit. simpl. intros Hin. apply in_flat_map in Hin.
  destruct Hin as (tc & _ & Hin). split; [exact Hcd|].
  destruct (owner_of_text h r (manager_cell h r) cd Ho) as (s & Hs & Hne & Hst).
  fold o in Hs.
  destruct (emit_interval_text _ _ _ _ _ _ _ Hin) as (label & Hlabel).
  destruct (emit_In rt data h r o cd tc rec Hin)
    as (interval & offers & total & warm & warm_off & conv & -> & H1 & H2
        & H3 & H4 & H5).
  cbn in Hlabel. subst interval. rewrite Hs.
  exists s, label, offers, total, warm, warm_off, conv.
  split; [reflexivity|]. split; [exact Hne|]. split; [exact Hst|].
  repeat split; eapply passed_through_not_blank; eassumption.
Qed.

(** X4.  [build_db_result] returns either a table and no error, exactly
    when a header is found, or no table and the fixed message.  A table
    starts with the eight column names; every row of it has eight fields,
    and every data record has a date that [is_valid_date_cell] accepts, a
    manager that is non-empty text without white space around it, an
    interval that is text, and five values none of which is the empty
    string or None. *)
Theorem build_db_result_well_formed (data : grid) :
  match build_db_result rt data with
  | (Some t, None) =>
    found (find_header_row_and_cols rt data) = true /\
    exists recs,
      t = columns :: recs /\
      Forall (fun rec => List.length rec = 8%nat) t /\
      Forall (well_formed_record rt) recs
  | (None, Some msg) =>
    found (find_header_row_and_cols rt data) = false /\
    msg = no_header_message /\ msg <> []
  | _ => False
  end.
Proof.
  destruct (found (find_header_row_and_cols rt data)) eqn:Hf.
  - rewrite build_db_result_rows by exact Hf. split; [reflexivity|].
    set (h := find_header_row_and_cols rt data) in *.
    exists (flat_map (records_of_row rt data h) (data_rows data h)).
    split; [reflexivity|].
    assert (Hwf : Forall (well_formed_record rt)
                    (flat_map (records_of_row rt data h) (data_rows data h))).
    { apply Forall_forall. intros rec Hrec. apply in_flat_map in Hrec.
      destruct Hrec as (i & Hi & Hrec). apply range_In in Hi.
      apply row_records_shape in Hrec.
      destruct Hrec as (Hcd & owner & interval & offers & total & warm
                        & warm_off & conv & -> & Hne & Hst & Hb).
      destruct (date_in_force rt data h i) as (j & _ & Hdate & Hd & _);
        [lia | exact Hcd |].
      unfold is_date_row in Hdate. rewrite <- Hd in Hdate.
      destruct (date_at rt data h i) as [| | | |date] eqn:Hat;
        try discriminate Hdate.
      exists date, owner, interval, offers, total, warm, warm_off, conv.
      split; [reflexivity|]. split; [exact Hdate|]. split; [exact Hne|].
      split; [exact Hst | exact Hb]. }
    split; [|exact Hwf].
    constructor; [reflexivity|].
    apply Forall_forall. intros rec Hrec.
    rewrite Forall_forall in Hwf. destruct (Hwf rec Hrec)
      as (date & owner & interval & offers & total & warm & warm_off & conv
          & -> & _).
    reflexivity.
  - rewrite build_db_result_no_header by exact Hf.
    split; [reflexivity|]. split; [reflexivity | discriminate].
Qed.

End TableShape.

(** ** The sync of one sheet *)

Section PipelineFacts.

Variable rt : Runtime.
Variable SOURCE_SPREADSHEET_ID TARGET_SPREADSHEET_ID : str.
Variable added_sheet_id : str -> str -> Z.
Variable raises : request -> bool.

Lemma find_existsb {A} (f : A -> bool) (l : list A) :
  existsb f l = match find f l with Some _ => true | None => false end.
Proof.
  induction l as [|a l IH]; simpl; [reflexivity|].
  destruct (f a); [reflexivity | exact IH].
Qed.

(** X5.  [sync_one] makes its requests in this order: it reads the source
    sheet and, only when that has rows and a header is found in them, asks
    for the sheets of the target, adds the sheet DB_{name} if the target
    has none of that title, clears DB_{name}, and writes the whole table
    to DB_{name}!A1:H{rows}, where rows is the number of rows of the table.
    The run ends at the first of these requests that raises: the requests
    before it are executed, no later one is, and its HttpError leaves
    [sync_one]; so a failure of the write after the clear leaves DB_{name}
    cleared and not written.  When no request raises, [sync_one] returns.
    No other exception arises, and the run always ends. *)
Theorem sync_one_effects (service : Service) (sheet_name : str) :
  let source := read_values service SOURCE_SPREADSHEET_ID sheet_name in
  let db_name := lit "DB_" ++ sheet_name in
  let present :=
    existsb (fun s => str_eqb (title s) db_name)
      (get_spreadsheet_metadata service TARGET_SPREADSHEET_ID) in
  let plan :=
    GetValues SOURCE_SPREADSHEET_ID sheet_name ::
    match source, build_db_result rt source with
    | _ :: _, (Some t, None) =>
      GetSpreadsheet TARGET_SPREADSHEET_ID ::
      (if present then [] else [AddSheet TARGET_SPREADSHEET_ID db_name]) ++
      [ClearValues TARGET_SPREADSHEET_ID db_name;
       UpdateValues TARGET_SPREADSHEET_ID
         (db_name ++ lit "!A1:H" ++ str_of_int (len t)) t]
    | _, _ => []
    end in
  exists effects,
    sync_one rt SOURCE_SPREADSHEET_ID TARGET_SPREADSHEET_ID added_sheet_id
      raises service sheet_name =
    (effects,
     match snd (attempt raises plan) with
     | Some q => Raised (HttpError q)
     | None => Returned tt
     end) /\
    executed effects = fst (attempt raises plan).
Proof.
  intros source db_name present plan. subst plan.
  unfold sync_one, Call.read_values, Call.execute. cbv zeta.
  fold source. fold db_name. cbn [attempt].
  destruct (raises (GetValues SOURCE_SPREADSHEET_ID sheet_name));
    [eexists; split; reflexivity|].
  cbn [bind]. fold source.
  destruct source as [|r0 rest] eqn:Hs; [eexists; split; reflexivity|].
  destruct (found (find_header_row_and_cols rt (r0 :: rest))) eqn:Hf.
  - rewrite (build_db_result_rows rt (r0 :: rest) Hf).
    set (recs := flat_map _ _). cbv beta iota.
    replace (letters_of (len columns)) with (ret (lit "H")) by reflexivity.
    unfold ensure_sheet_exists, Call.get_spreadsheet_metadata,
      Call.clear_sheet, Call.write_values, Call.execute.
    cbn [attempt].
    destruct (raises (GetSpreadsheet TARGET_SPREADSHEET_ID));
      [eexists; split; reflexivity|].
    cbn [bind]. subst present db_name. rewrite find_existsb.
    assert (R : forall x : str, lit "!A1:" ++ lit "H" ++ x = lit "!A1:H" ++ x)
      by reflexivity.
    destruct (find _ _) as [s|]; cbn [app attempt bind ret raise];
      try (destruct (raises (AddSheet _ _)); cbn [app attempt bind ret raise]);
      try (destruct (raises (ClearValues _ _));
           cbn [app attempt bind ret raise]);
      rewrite ?R;
      try (destruct (raises (UpdateValues _ _ _));
           cbn [app attempt bind ret raise]);
      eexists; split; reflexivity.
  - rewrite (build_db_result_no_header rt (r0 :: rest) Hf).
    cbv beta iota.
    assert (M : no_header_message <> []) by (vm_compute; discriminate).
    destruct no_header_message as [|c e]; [contradiction|].
    eexists; split; reflexivity.
Qed.

End PipelineFacts.

From Stdlib Require Import Sorted.

(** ** The columns of the header *)

Section ColumnFacts.

Variable rt : Runtime.

Lemma time_cols_from_sorted (cells : row) (c : Z) :
  StronglySorted Z.lt (time_cols_from rt cells c).
Proof.
  revert c. induction cells as [|cell rest IH]; intros c;
    cbn [time_cols_from]; [constructor|].
  destruct (is_time_cell rt cell); cbn [app]; [|apply IH].
  constructor; [apply IH|]. apply Forall_forall. intros x Hx.
  apply time_cols_from_In in Hx. lia.
Qed.

(** X6.  When a header is found, timeCols lists exactly the columns of the
    header row whose cell is a time interval, each once, from left to
    right. *)
Theorem timeCols_are_the_time_columns (data : grid) :
  let h := find_header_row_and_cols rt data in
  let hrow := getitem [] data (rowIdx h) in
  found h = true ->
  (forall c, In c (timeCols h) <->
     0 <= c < len hrow /\ time_header rt (getitem VNone hrow c)) /\
  StronglySorted Z.lt (timeCols h).
Proof.
  intros h hrow Hf.
  destruct (find_header_found rt data Hf) as (k & _ & _ & _ & Ht & _).
  fold h in Ht. fold hrow in Ht. rewrite Ht. split.
  - intros c. rewrite time_cols_from_In, Z.sub_0_r, is_time_cell_spec.
    reflexivity.
  - apply time_cols_from_sorted.
Qed.

End ColumnFacts.

(** ** The aggregate columns *)

Lemma getitem_cons {A} (d x : A) (l : list A) (j : Z) :
  0 < j -> getitem d (x :: l) j = getitem d l (j - 1).
Proof.
  intros Hj. unfold getitem.
  replace (Z.to_nat j) with (S (Z.to_nat (j - 1))) by lia. reflexivity.
Qed.

Lemma len_cons {A} (x : A) (l : list A) : len (x :: l) = len l + 1.
Proof. unfold len. cbn [List.length]. lia. Qed.

Lemma last_col_spec (p : value -> bool) (cells : row) (c acc : Z) :
  (last_col p cells c acc = acc /\
   forall j, 0 <= j < len cells -> p (getitem VNone cells j) = false) \/
  (exists j, 0 <= j < len cells /\
     last_col p cells c acc = c + j /\
     p (getitem VNone cells j) = true /\
     forall j', j < j' < len cells -> p (getitem VNone cells j') = false).
Proof.
  revert c acc. induction cells as [|cell rest IH]; intros c acc;
    cbn [last_col].
  - left. split; [reflexivity|]. unfold len. cbn. intros j Hj. lia.
  - destruct (IH (c + 1) (if p cell then c else acc))
      as [[Hv Hnone] | (j & Hj & Hv & Hp & Hlast)].
    + destruct (p cell) eqn:E.
      * right. exists 0. rewrite len_cons.
        split; [unfold len; lia|]. split; [rewrite Hv; lia|].
        split; [exact E|]. intros j' Hj'.
        rewrite getitem_cons by lia. apply Hnone. lia.
      * left. split; [exact Hv|]. intros j Hj. rewrite len_cons in Hj.
        destruct (Z.eq_dec j 0) as [-> | Hne]; [exact E|].
        rewrite getitem_cons by lia. apply Hnone. lia.
    + right. exists (j + 1). rewrite len_cons.
      split; [lia|]. split; [rewrite Hv; lia|].
      rewrite getitem_cons by lia. replace (j + 1 - 1) with j by lia.
      split; [exact Hp|]. intros j' Hj'.
      rewrite getitem_cons by lia. apply Hlast. lia.
Qed.

Section Slot.

Variable rt : Runtime.
Variable g : Info -> Z.
Variable p : value -> bool.

Hypothesis g_cell : forall st c cell,
  g (info (scan_cell rt st c cell)) = if p cell then c else g (info st).
Hypothesis g_found : forall r m i, g (set_found r m i) = g i.

Lemma scan_row_slot (cells : row) (c : Z) (st : Scan) :
  g (info (scan_row rt cells c st)) = last_col p cells c (g (info st)).
Proof.
  revert c st. induction cells as [|cell rest IH]; intros c st;
    cbn [scan_row last_col]; [reflexivity|].
  now rewrite IH, g_cell.
Qed.

Lemma scan_rows_slot (rows : grid) (r : Z) (i : Info) :
  g (scan_rows rt rows r i) = last_col_rows rt p rows (g i).
Proof.
  revert r i. induction rows as [|cells rest IH]; intros r i;
    cbn [scan_rows last_col_rows]; [reflexivity|].
  rewrite scan_row_has_time. cbn [has_time orb].
  destruct (has_time_cell rt cells).
  - now rewrite g_found, scan_row_slot.
  - now rewrite IH, scan_row_slot.
Qed.

Lemma last_col_rows_spec (rows : grid) (k : nat) (acc : Z) :
  first_time_row rt rows = Some k ->
  let v := last_col_rows rt p rows acc in
  let cell := fun r c => getitem VNone (nth r rows []) c in
  (v = acc /\
   forall r c, (r <= k)%nat -> 0 <= c < len (nth r rows []) ->
     p (cell r c) = false) \/
  (exists r, (r <= k)%nat /\ 0 <= v < len (nth r rows []) /\
     p (cell r v) = true /\
     (forall c, v < c < len (nth r rows []) -> p (cell r c) = false) /\
     (forall r' c, (r < r' <= k)%nat -> 0 <= c < len (nth r' rows []) ->
        p (cell r' c) = false)).
Proof.
  revert k acc. induction rows as [|cells rest IH]; intros k acc;
    cbn [first_time_row last_col_rows]; [discriminate|].
  cbv zeta.
  destruct (last_col_spec p cells 0 acc)
    as [[Hv Hnone] | (j & Hj & Hv & Hp & Hlast)];
    destruct (has_time_cell rt cells) eqn:E.
  - intros H. injection H as <-. left. split; [exact Hv|].
    intros r c Hr Hc. replace r with O in * by lia. now apply Hnone.
  - destruct (first_time_row rt rest) as [k'|] eqn:F; [|discriminate].
    intros H. injection H as <-. rewrite Hv.
    destruct (IH k' acc eq_refl) as [[Hv' Hn'] | (r & Hr & Hrange & Hpr & Hl1 & Hl2)].
    + left. split; [exact Hv'|]. intros [|r] c Hr Hc; [now apply Hnone|].
      apply Hn'; [lia | exact Hc].
    + right. exists (S r). split; [lia|]. split; [exact Hrange|].
      split; [exact Hpr|]. split; [exact Hl1|].
      intros [|r'] c Hr' Hc; [lia|]. apply Hl2; [lia | exact Hc].
  - intros H. injection H as <-. right. exists O. rewrite Hv, Z.add_0_l.
    split; [lia|]. split; [exact Hj|]. split; [exact Hp|].
    split; [exact Hlast|]. intros r' c Hr'. lia.
  - destruct (first_time_row rt rest) as [k'|] eqn:F; [|discriminate].
    intros H. injection H as <-. rewrite Hv, Z.add_0_l.
    destruct (IH k' j eq_refl) as [[Hv' Hn'] | (r & Hr & Hrange & Hpr & Hl1 & Hl2)].
    + right. exists O. rewrite Hv'. split; [lia|]. split; [exact Hj|].
      split; [exact Hp|]. split; [exact Hlast|].
      intros [|r'] c Hr' Hc; [lia|]. apply Hn'; [lia | exact Hc].
    + right. exists (S r). split; [lia|]. split; [exact Hrange|].
      split; [exact Hpr|]. split; [exact Hl1|].
      intros [|r'] c Hr' Hc; [lia|]. apply Hl2; [lia | exact Hc].
Qed.

Lemma slot_last_labelled (data : grid) :
  let h := find_header_row_and_cols rt data in
  found h = true -> g init_info = -1 ->
  last_labelled p data (rowIdx h) (g h).
Proof.
  intros h Hf Hinit.
  destruct (find_header_found rt data Hf) as (k & F & Hk & Hr & _).
  fold h in Hr.
  destruct (first_time_row_Some rt _ _ F) as (Hks & _ & _).
  assert (Hrow : forall r, 0 <= r <= rowIdx h ->
            getitem [] data r = nth (Z.to_nat r) (scanned data) []).
  { intros r Hrange. unfold getitem. symmetry. apply scanned_nth. lia. }
  assert (Hg : g h = last_col_rows rt p (scanned data) (-1)).
  { unfold h, find_header_row_and_cols. fold (scanned data).
    now rewrite scan_rows_slot, Hinit. }
  unfold last_labelled. cbv zeta. rewrite Hg.
  destruct (last_col_rows_spec (scanned data) k (-1) F)
    as [[Hv Hnone] | (r & Hrk & Hrange & Hpr & Hl1 & Hl2)].
  - left. split; [exact Hv|]. intros r c Hr' Hc. rewrite Hrow in * by lia.
    apply Hnone; [lia | exact Hc].
  - right. exists (Z.of_nat r).
    assert (Hrr : getitem [] data (Z.of_nat r) = nth r (scanned data) []).
    { rewrite Hrow by lia. now rewrite Nat2Z.id. }
    rewrite Hrr. split; [lia|]. split; [exact Hrange|]. split; [exact Hpr|].
    split; [exact Hl1|]. intros r' c Hr' Hc. rewrite Hrow in * by lia.
    apply Hl2; [lia | exact Hc].
Qed.

End Slot.

Section AggregateColumns.

Variable rt : Runtime.

Ltac scan_cell_slot :=
  intros st c cell;
  unfold scan_cell, total_label, warm_label, warm_off_label, conv_label;
  cbv zeta;
  destruct (is_time_text rt (lower rt (py_str rt cell)));
  repeat match goal with
         | |- context [if ?b then _ else _] => destruct b
         end;
  reflexivity.

Lemma scan_cell_totalCol : forall st c cell,
  totalCol (info (scan_cell rt st c cell)) =
  if total_label rt cell then c else totalCol (info st).
Proof. scan_cell_slot. Qed.

Lemma scan_cell_warmCol : forall st c cell,
  warmCol (info (scan_cell rt st c cell)) =
  if warm_label rt cell then c else warmCol (info st).
Proof. scan_cell_slot. Qed.

Lemma scan_cell_warmOffCol : forall st c cell,
  warmOffCol (info (scan_cell rt st c cell)) =
  if warm_off_label rt cell then c else warmOffCol (info st).
Proof. scan_cell_slot. Qed.

Lemma scan_cell_convCol : forall st c cell,
  convCol (info (scan_cell rt st c cell)) =
  if conv_label rt cell then c else convCol (info st).
Proof. scan_cell_slot. Qed.

(** X7.  When a header is found, each of totalCol, warmCol, warmOffCol
    and convCol is the column of the last cell, reading the rows from the
    top down to the header row and each row from left to right, whose
    lowercased text holds the label of that column; it is -1 exactly when
    no cell of these rows holds the label.  Rows above the header row
    count, and the header row, read last, wins. *)
Theorem aggregate_columns_are_last_labels (data : grid) :
  let h := find_header_row_and_cols rt data in
  found h = true ->
  last_labelled (total_label rt) data (rowIdx h) (totalCol h) /\
  last_labelled (warm_label rt) data (rowIdx h) (warmCol h) /\
  last_labelled (warm_off_label rt) data (rowIdx h) (warmOffCol h) /\
  last_labelled (conv_label rt) data (rowIdx h) (convCol h).
Proof.
  intros h Hf. repeat split.
  - apply (slot_last_labelled rt totalCol (total_label rt)
             scan_cell_totalCol (fun _ _ _ => eq_refl) data Hf eq_refl).
  - apply (slot_last_labelled rt warmCol (warm_label rt)
             scan_cell_warmCol (fun _ _ _ => eq_refl) data Hf eq_refl).
  - apply (slot_last_labelled rt warmOffCol (warm_off_label rt)
             scan_cell_warmOffCol (fun _ _ _ => eq_refl) data Hf eq_refl).
  - apply (slot_last_labelled rt convCol (conv_label rt)
             scan_cell_convCol (fun _ _ _ => eq_refl) data Hf eq_refl).
Qed.

End AggregateColumns.

Section NoAggregates.

Variable rt : Runtime.



End NoAggregates.

(** ** The further theorems at the sample grids *)

Lemma col_to_a1_round_trip_witness :
  0 <= 28 /\
  exists t,
    col_to_a1 28 = Some t /\
    a1_value t = 28 /\
    forallb is_capital t = true /\
    (forall fuel, (Z.to_nat 28 < fuel)%nat ->
       col_to_a1_loop fuel 28 [] = Some t) /\
    (forall m, 0 <= m -> col_to_a1 m = Some t -> m = 28).
Proof.
  split; [lia|]. apply (col_to_a1_round_trip 28). lia.
Defined.

Lemma col_to_a1_negative_witness :
  -1 < 0 /\ col_to_a1_loop 1000 (-1) [] = None.
Proof.
  split; [lia|]. apply (col_to_a1_negative 1000 (-1) []). lia.
Defined.

Lemma timeCols_are_the_time_columns_witness :
  found (find_header_row_and_cols plain_runtime two_slot_grid) = true /\
  (forall c,
     In c (timeCols (find_header_row_and_cols plain_runtime two_slot_grid)) <->
     0 <= c < len (getitem [] two_slot_grid
                     (rowIdx (find_header_row_and_cols plain_runtime
                                two_slot_grid))) /\
     time_header plain_runtime
       (getitem VNone
          (getitem [] two_slot_grid
             (rowIdx (find_header_row_and_cols plain_runtime two_slot_grid)))
          c)) /\
  StronglySorted Z.lt
    (timeCols (find_header_row_and_cols plain_runtime two_slot_grid)).
Proof.
  assert (Hf : found (find_header_row_and_cols plain_runtime two_slot_grid)
               = true) by (vm_compute; reflexivity).
  split; [exact Hf|].
  exact (timeCols_are_the_time_columns plain_runtime two_slot_grid Hf).
Defined.

Lemma aggregate_columns_are_last_labels_witness :
  found (find_header_row_and_cols plain_runtime two_slot_grid) = true /\
  last_labelled (total_label plain_runtime) two_slot_grid
    (rowIdx (find_header_row_and_cols plain_runtime two_slot_grid))
    (totalCol (find_header_row_and_cols plain_runtime two_slot_grid)).
Proof.
  assert (Hf : found (find_header_row_and_cols plain_runtime two_slot_grid)
               = true) by (vm_compute; reflexivity).
  split; [exact Hf|].
  exact (proj1 (aggregate_columns_are_last_labels plain_runtime two_slot_grid
                  Hf)).
Defined.


(** The sync of the sheet March of [grid_service]: DB_March exists, so
    no sheet is added.  When no request raises, the sheet is cleared and
    the table written; when the update raises, the sheet is left cleared
    and the error leaves [sync_one]. *)
Lemma sync_one_effects_witness :
  (exists effects,
     sync_one plain_runtime (lit "source") (lit "target") (fun _ _ => 0)
       (fun _ => false) grid_service (lit "March") = (effects, Returned tt) /\
     executed effects =
     [GetValues (lit "source") (lit "March");
      GetSpreadsheet (lit "target");
      ClearValues (lit "target") (lit "DB_March");
      UpdateValues (lit "target") (lit "DB_March!A1:H4") two_slot_table]) /\
  (exists effects,
     sync_one plain_runtime (lit "source") (lit "target") (fun _ _ => 0)
       update_fails grid_service (lit "March") =
     (effects,
      Raised (HttpError (UpdateValues (lit "target") (lit "DB_March!A1:H4")
                           two_slot_table))) /\
     executed effects =
     [GetValues (lit "source") (lit "March");
      GetSpreadsheet (lit "target");
      ClearValues (lit "target") (lit "DB_March")]).
Proof.
  split.
  - destruct (sync_one_effects plain_runtime (lit "source") (lit "target")
                (fun _ _ => 0) (fun _ => false) grid_service (lit "March"))
      as (effects & He & Hx).
    exists effects. vm_compute in He, Hx. split; vm_compute; assumption.
  - destruct (sync_one_effects plain_runtime (lit "source") (lit "target")
                (fun _ _ => 0) update_fails grid_service (lit "March"))
      as (effects & He & Hx).
    exists effects. vm_compute in He, Hx. split; vm_compute; assumption.
Defined.
